(** * Desktop diligence pipeline ([app.py]): a shallow embedding

    The pipeline resolves a company name to a ticker ([find_ticker]),
    fetches the provider's record ([get_yfinance_data]), builds a
    multi-sheet workbook ([save_to_excel]) and drives a batch of companies
    ([run_public_diligence] and the button's [for] loop).

    Python values are an inductive type, exceptions are an explicit
    [result], user-interface and logging calls are events of a trace, and
    the remote services (HTTP search, provider client, clock, spreadsheet
    engine) are variables of the section [Pipeline]. *)

From Stdlib Require Import ZArith List String Ascii Bool Lia SpecFloat.
Import ListNotations.
Local Open Scope string_scope.
Local Open Scope list_scope.

Set Implicit Arguments.
Set Warnings "-register-all".

(** ** Python values *)

(** binary64, as the Standard Library specifies it (IEEE 754). *)
Definition float := spec_float.
Definition nan : float := S754_nan.
Definition fdiv : float -> float -> float := SFdiv 53 1024.
Definition float_of_Z (z : Z) : float := binary_normalize 53 1024 z 0 false.
(** the literal [1e6] *)
Definition f1e6 : float := float_of_Z 1000000.

(** What [response.json()] can return, and what [t.info] holds. A [PDict]
    lists the entries of a dict in insertion order, keys distinct. *)
Inductive pyval :=
| PNone
| PBool (b : bool)
| PInt (z : Z)
| PFloat (f : float)
| PStr (s : string)
| PList (l : list pyval)
| PDict (d : list (string * pyval)).

Definition type_name (v : pyval) : string :=
  match v with
  | PNone => "NoneType"
  | PBool _ => "bool"
  | PInt _ => "int"
  | PFloat _ => "float"
  | PStr _ => "str"
  | PList _ => "list"
  | PDict _ => "dict"
  end.

(** Truth value of an object, as [if not ticker] tests it. *)
Definition truthy (v : pyval) : bool :=
  match v with
  | PNone => false
  | PBool b => b
  | PInt z => negb (z =? 0)%Z
  | PFloat (S754_zero _) => false
  | PFloat _ => true
  | PStr s => negb (s =? "")
  | PList l => negb (Nat.eqb (List.length l) 0)
  | PDict d => negb (Nat.eqb (List.length d) 0)
  end.

(** [v == s] for a string literal [s]. *)
Definition py_eq_str (v : pyval) (s : string) : bool :=
  match v with
  | PStr t => (t =? s)
  | _ => false
  end.

(** An f-string is the concatenation of its pieces. *)
Definition fstr (parts : list string) : string := String.concat "" parts.

(** ** Exceptions *)

(** An exception: its class and [str(e)]. *)
Inductive exn := Exc (cls msg : string).

Definition exn_str (e : exn) : string := let 'Exc _ m := e in m.

Inductive result (A : Type) :=
| OK (a : A)
| Raise (e : exn).
Arguments Raise {A} e.

Definition AttributeError (v : pyval) (attr : string) : exn :=
  Exc "AttributeError"
      (fstr ["'"; type_name v; "' object has no attribute '"; attr; "'"]).

Definition NotIterable (v : pyval) : exn :=
  Exc "TypeError" (fstr ["'"; type_name v; "' object is not iterable"]).

(** ** Dictionaries *)

Section Dict.
Variable V : Type.

Fixpoint lookup (k : string) (d : list (string * V)) : option V :=
  match d with
  | [] => None
  | (k', v) :: rest => if k' =? k then Some v else lookup k rest
  end.

(** [d.get(k, default)] *)
Definition dict_get (d : list (string * V)) (k : string) (default : V) : V :=
  match lookup k d with
  | Some v => v
  | None => default
  end.

(** [k in d] *)
Definition dict_mem (k : string) (d : list (string * V)) : bool :=
  match lookup k d with
  | Some _ => true
  | None => false
  end.
End Dict.

(** [v.get(k, default)]: only a dict has [get]. *)
Definition py_get (v : pyval) (k : string) (default : pyval) : result pyval :=
  match v with
  | PDict d => OK (dict_get d k default)
  | _ => Raise (AttributeError v "get")
  end.

Fixpoint chars (s : string) : list string :=
  match s with
  | EmptyString => []
  | String c rest => String c EmptyString :: chars rest
  end.

(** [for item in v]: the items a [for] loop visits. *)
Definition py_iter (v : pyval) : result (list pyval) :=
  match v with
  | PList l => OK l
  | PStr s => OK (map PStr (chars s))
  | PDict d => OK (map (fun kv => PStr (fst kv)) d)
  | _ => Raise (NotIterable v)
  end.

(** An entry of the [quotes] array that is an object, and one whose
    [quoteType] is "EQUITY". *)
Definition is_object (item : pyval) : bool :=
  match item with
  | PDict _ => true
  | _ => false
  end.

Definition is_equity (item : pyval) : bool :=
  match item with
  | PDict d => py_eq_str (dict_get d "quoteType" PNone) "EQUITY"
  | _ => false
  end.

(** An object of another classification. *)
Definition other_entry (item : pyval) : bool :=
  is_object item && negb (is_equity item).

(** ** Tables *)

(** A cell of a statement table as the provider delivers it. *)
Inductive cell :=
| CNone
| CInt (z : Z)
| CFloat (f : float)
| CStr (s : string).

(** A [pandas.DataFrame]: row labels, and the columns in order, each a
    label with one cell per row. *)
Record DataFrame := mkDF {
  df_index_name : option string;
  df_index : list cell;
  df_columns : list (string * list cell)
}.

Definition df_labels (df : DataFrame) : list string := map fst (df_columns df).

(** [df.empty]: some axis has length 0. *)
Definition df_empty (df : DataFrame) : bool :=
  match df_index df, df_columns df with
  | [], _ => true
  | _, [] => true
  | _, _ => false
  end.

(** [df.shape[1]] *)
Definition df_width (df : DataFrame) : nat := List.length (df_columns df).

(** Every column has one cell per row label. *)
Definition df_wf (df : DataFrame) : Prop :=
  Forall (fun c => List.length (snd c) = List.length (df_index df)) (df_columns df).

Definition cell_val (c : cell) : pyval :=
  match c with
  | CNone => PNone
  | CInt z => PInt z
  | CFloat f => PFloat f
  | CStr s => PStr s
  end.

(** A sheet as handed to the spreadsheet engine with [index=False]: its
    name and its columns, each a header with its cells top to bottom. *)
Record sheet := mkSheet {
  sh_name : string;
  sh_columns : list (string * list pyval)
}.

Definition workbook := list sheet.

(** Rows of a sheet below its header line, top to bottom. *)
Definition sheet_height (sh : sheet) : nat :=
  match sh_columns sh with
  | [] => 0
  | c :: _ => List.length (snd c)
  end.

Definition sheet_row (sh : sheet) (i : nat) : list pyval :=
  map (fun c => nth i (snd c) PNone) (sh_columns sh).

Definition sheet_rows (sh : sheet) : list (list pyval) :=
  map (sheet_row sh) (seq 0 (sheet_height sh)).

(** A cell the spreadsheet shows empty: [to_excel] writes a missing value
    (NaN, [None]) as the empty string. *)
Definition excel_blank (v : pyval) : bool :=
  match v with
  | PNone => true
  | PFloat S754_nan => true
  | PStr "" => true
  | _ => false
  end.

Definition sheet_names (wb : workbook) : list string := map sh_name wb.

(** A value of the [data] dict: a plain value or a table. *)
Inductive obj :=
| OVal (v : pyval)
| OFrame (df : DataFrame).

Definition pydata := list (string * obj).

(** ** Effects *)

Inductive event :=
| ev_requests_get (url : string)
| ev_yf_Ticker (ticker : pyval)
| st_error (msg : string)
| st_warning (msg : string)
| st_info (msg : string)
| st_success (msg : string)
| st_write (msg : string)
| st_spinner (msg : string)
| st_download_button (label : string) (data : workbook) (file_name mime : string)
| logging_error (msg : string)
| logging_info (msg : string).

Class Monad (m : Type -> Type) := {
  ret : forall A, A -> m A;
  bind : forall A B, m A -> (A -> m B) -> m B
}.
Arguments ret {m _ A} _.
Arguments bind {m _ A B} _ _.

Declare Scope monad_scope.
Notation "x <- c ;; k" := (bind c (fun x => k))
  (at level 61, c at next level, right associativity) : monad_scope.
Notation "' p <- c ;; k" := (bind c (fun x => let p := x in k))
  (at level 61, p pattern, c at next level, right associativity) : monad_scope.
Notation "c ;; k" := (bind c (fun _ => k))
  (at level 61, right associativity) : monad_scope.
Local Open Scope monad_scope.

#[global] Instance Monad_result : Monad result := {|
  ret := fun A a => OK a;
  bind := fun A B c k => match c with OK a => k a | Raise e => Raise e end
|}.

(** A computation of the script: the events it emits, in order, and its
    value or the exception that leaves it. *)
Definition M (A : Type) : Type := (list event * result A)%type.

#[global] Instance Monad_M : Monad M := {|
  ret := fun A a => ([], OK a);
  bind := fun A B c k =>
    match c with
    | (w, OK a) => let '(w', r) := k a in (w ++ w', r)
    | (w, Raise e) => (w, Raise e)
    end
|}.

Definition emit (e : event) : M unit := ([e], OK tt).

Definition lift {A} (r : result A) : M A := ([], r).

(** [try: body except Exception as e: handler] *)
Definition try_except {A} (body : M A) (handler : exn -> M A) : M A :=
  match body with
  | (w, OK a) => (w, OK a)
  | (w, Raise e) => let '(w', r) := handler e in (w ++ w', r)
  end.

Definition trace {A} (c : M A) : list event := fst c.
Definition outcome {A} (c : M A) : result A := snd c.

(** The open [pd.ExcelWriter]: the sheets written so far are threaded
    through the [with] block, next to the value or exception. *)
Definition W (A : Type) : Type := workbook -> (workbook * result A)%type.

#[global] Instance Monad_W : Monad W := {|
  ret := fun A a => fun wb => (wb, OK a);
  bind := fun A B c k => fun wb =>
    match c wb with
    | (wb', OK a) => k a wb'
    | (wb', Raise e) => (wb', Raise e)
    end
|}.

Definition liftW {A} (r : result A) : W A := fun wb => (wb, r).

(** ** The clock *)

Record datetime := mkDate {
  year : nat; month : nat; day : nat;
  hour : nat; minute : nat; second : nat
}.

Definition digit (n : nat) : string :=
  String (ascii_of_nat (48 + n mod 10)) EmptyString.

(** [f"{now:%Y%m%d}"]: four digits of the year (1..9999 for a [datetime]),
    two of the month, two of the day. *)
Definition strftime_Ymd (now : datetime) : string :=
  fstr [digit (year now / 1000); digit (year now / 100);
        digit (year now / 10); digit (year now);
        digit (month now / 10); digit (month now);
        digit (day now / 10); digit (day now)].

(** The dates a [datetime] can hold. *)
Definition date_in_range (d : datetime) : Prop :=
  (1 <= Z.of_nat (year d) <= 9999)%Z /\ 1 <= month d <= 12 /\ 1 <= day d <= 31.

(** ** The provider client *)

(** [requests.Response]: all the script reads is [response.json()]. *)
Record response := mkResponse { resp_json : result pyval }.

(** A [yf.Ticker]: each property read yields its value or raises. *)
Record TickerObj := mkTicker {
  t_info : result pyval;
  t_financials : result DataFrame;
  t_balance_sheet : result DataFrame;
  t_cashflow : result DataFrame;
  t_quarterly_financials : result DataFrame;
  t_quarterly_balance_sheet : result DataFrame;
  t_quarterly_cashflow : result DataFrame
}.

(** ** Table operations used by the report builder *)

Section Tables.

(** [pandas]' reading of a string as a number; [None] when it has none. *)
Variable str_to_float : string -> option float.

(** [pd.to_numeric(_, errors='coerce')] on one cell: what is not a number
    becomes NaN. *)
Definition to_numeric (c : cell) : float :=
  match c with
  | CNone => nan
  | CInt z => float_of_Z z
  | CFloat f => f
  | CStr s => match str_to_float s with Some f => f | None => nan end
  end.

(** [pd.to_numeric(x, errors='coerce') / 1e6] on one cell *)
Definition millions (c : cell) : cell := CFloat (fdiv (to_numeric c) f1e6).

(** A whole column after conversion. *)
Definition millions_column (c : string * list cell) : string * list cell :=
  (fst c, map millions (snd c)).

(** [df[col]] as [pd.to_numeric] accepts it: the one column of that label.
    With a repeated label [df[col]] is a frame and [to_numeric] raises. *)
Definition df_getitem (df : DataFrame) (col : string) : result (list cell) :=
  match filter (fun c => fst c =? col) (df_columns df) with
  | [] => Raise (Exc "KeyError" col)
  | [c] => OK (snd c)
  | _ => Raise (Exc "TypeError" "arg must be a list, tuple, 1-d array, or Series")
  end.

(** [df[col] = vals] for a label already present *)
Definition df_setitem (df : DataFrame) (col : string) (vals : list cell) : DataFrame :=
  mkDF (df_index_name df) (df_index df)
       (map (fun c => if fst c =? col then (fst c, vals) else c) (df_columns df)).

(** [for col in df.columns: df[col] = pd.to_numeric(df[col], ...) / 1e6] *)
Fixpoint convert_columns (labels : list string) (df : DataFrame) : result DataFrame :=
  match labels with
  | [] => OK df
  | col :: rest =>
      s <- df_getitem df col ;;
      convert_columns rest (df_setitem df col (map millions s))
  end.

Definition convert_to_millions (df : DataFrame) : result DataFrame :=
  convert_columns (df_labels df) df.

Definition mem (s : string) (l : list string) : bool := existsb (String.eqb s) l.

(** The label [reset_index] gives the promoted column. *)
Definition index_label (df : DataFrame) : string :=
  match df_index_name df with
  | Some n => n
  | None => if mem "index" (df_labels df) then "level_0" else "index"
  end.

Definition range_index (n : nat) : list cell :=
  map (fun i => CInt (Z.of_nat i)) (seq 0 n).

(** [df.reset_index(inplace=True)]: the row labels become the leading
    column; a label that is already a column is refused. *)
Definition reset_index (df : DataFrame) : result DataFrame :=
  let name := index_label df in
  if mem name (df_labels df)
  then Raise (Exc "ValueError" (fstr ["cannot insert "; name; ", already exists"]))
  else OK (mkDF None (range_index (List.length (df_index df)))
                ((name, df_index df) :: df_columns df)).

(** [pd.DataFrame([[note] + [""] * (df.shape[1] - 1)], columns=df.columns)]
    for a frame of at least one column. *)
Definition header_note (note : string) (df : DataFrame) : DataFrame :=
  let row := CStr note :: repeat (CStr "") (df_width df - 1) in
  mkDF None (range_index 1) (combine (df_labels df) (map (fun c => [c]) row)).

(** [pd.concat([a, b], ignore_index=True)] for two frames of the same
    labels: the columns of [a], each followed by the column of [b] of that
    label. *)
Definition concat (a b : DataFrame) : DataFrame :=
  mkDF None (range_index (List.length (df_index a) + List.length (df_index b)))
       (map (fun c => (fst c,
                       snd c ++ dict_get (df_columns b) (fst c)
                                         (repeat (CFloat nan) (List.length (df_index b)))))
            (df_columns a)).

(** The cell of row [i] in column [j]. *)
Definition df_cell (df : DataFrame) (i j : nat) : cell :=
  nth i (snd (nth j (df_columns df) ("", []))) CNone.

(** The number a raw cell stands for, when it stands for one. *)
Definition numeric_value (c : cell) : option float :=
  match c with
  | CNone => None
  | CInt z => Some (float_of_Z z)
  | CFloat f => Some f
  | CStr s => str_to_float s
  end.

(** What [to_excel(..., index=False)] receives of a frame. *)
Definition frame_sheet (sheet_name : string) (df : DataFrame) : sheet :=
  mkSheet sheet_name (map (fun c => (fst c, map cell_val (snd c))) (df_columns df)).

End Tables.

(** What [pd.to_numeric] raises on a frame. *)
Definition to_numeric_TypeError : exn :=
  Exc "TypeError" "arg must be a list, tuple, 1-d array, or Series".

(** The address of the search request. *)
Definition search_url (company_name : string) : string :=
  fstr ["https://query2.finance.yahoo.com/v1/finance/search?q="; company_name].

(** ** The input line

    [company_input.split(',')] and [name.strip()] of the button's handler.
    A character is a code point below 256. *)

(** [c.isspace()] *)
Definition is_space (c : ascii) : bool :=
  let n := nat_of_ascii c in
  (Nat.leb 9 n && Nat.leb n 13) || (Nat.leb 28 n && Nat.leb n 32)
  || Nat.eqb n 133 || Nat.eqb n 160.

Definition is_comma (c : ascii) : bool := Ascii.eqb c ",".

(** [s.split(',')]: the pieces between the commas, at least one. *)
Fixpoint split_comma (s : string) : list string :=
  match s with
  | EmptyString => [EmptyString]
  | String c rest =>
      if is_comma c then EmptyString :: split_comma rest
      else match split_comma rest with
           | [] => [String c EmptyString]
           | piece :: pieces => String c piece :: pieces
           end
  end.

(** [s.lstrip()] *)
Fixpoint lstrip (s : string) : string :=
  match s with
  | EmptyString => EmptyString
  | String c rest => if is_space c then lstrip rest else s
  end.

(** [s.rstrip()] *)
Fixpoint rstrip (s : string) : string :=
  match s with
  | EmptyString => EmptyString
  | String c rest =>
      match rstrip rest with
      | EmptyString => if is_space c then EmptyString else String c EmptyString
      | kept => String c kept
      end
  end.

(** [s.strip()] *)
Definition strip (s : string) : string := rstrip (lstrip s).

(** Truth value of a string *)
Definition nonempty (s : string) : bool := negb (s =? "").

(** [[name.strip() for name in company_input.split(',') if name.strip()]] *)
Definition parse_companies (company_input : string) : list string :=
  map strip (filter (fun name => nonempty (strip name)) (split_comma company_input)).

(** Every character of [s] passes [p]. *)
Fixpoint all_chars (p : ascii -> bool) (s : string) : bool :=
  match s with
  | EmptyString => true
  | String c rest => p c && all_chars p rest
  end.

(** A name as the handler passes it on: not empty, no comma, no blank at
    either end. *)
Definition clean_name (name : string) : bool :=
  nonempty name && all_chars (fun c => negb (is_comma c)) name
  && (strip name =? name).

(** The sheet names in the order the builder writes them. *)
Definition all_sheet_names : list string :=
  ["Overview"; "Annual_Income"; "Annual_Balance"; "Annual_Cashflow";
   "Quarterly_Income"; "Quarterly_Balance"; "Quarterly_Cashflow"].

(** ** Sample data

    A small world on which the facts below are run: four search answers,
    three provider records, a fixed clock and an engine that takes every
    sheet. *)

Definition quote (quoteType symbol : string) : pyval :=
  PDict [("quoteType", PStr quoteType); ("symbol", PStr symbol)].

Definition apple_search : pyval :=
  PDict [("quotes", PList [quote "OPTION" "AAPL240119C00100000";
                           quote "EQUITY" "AAPL";
                           quote "EQUITY" "AAPL.MX"])].

Definition microsoft_search : pyval :=
  PDict [("quotes", PList [quote "EQUITY" "MSFT"])].

Definition globex_search : pyval :=
  PDict [("quotes", PList [quote "EQUITY" "GLBX"])].

(** The first EQUITY entry carries no [symbol]; the second does. *)
Definition acme_search : pyval :=
  PDict [("quotes", PList [quote "ETF" "ACMX";
                           PDict [("quoteType", PStr "EQUITY")];
                           quote "EQUITY" "ACME"])].

Definition sample_requests_get (url : string) : result response :=
  if url =? search_url "Apple" then OK (mkResponse (OK apple_search))
  else if url =? search_url "Microsoft" then OK (mkResponse (OK microsoft_search))
  else if url =? search_url "Globex" then OK (mkResponse (OK globex_search))
  else if url =? search_url "Acme" then OK (mkResponse (OK acme_search))
  else if url =? search_url "Offline"
       then Raise (Exc "ConnectionError" "Max retries exceeded")
  else if url =? search_url "Garbled"
       then OK (mkResponse (Raise (Exc "JSONDecodeError" "Expecting value")))
  else OK (mkResponse (OK (PDict [("quotes", PList [])]))).

Definition income : DataFrame :=
  mkDF None
       [CStr "Total Revenue"; CStr "Goodwill"]
       [("2023-09-30", [CFloat (float_of_Z 383285000000); CStr "N/A"]);
        ("2022-09-30", [CInt 394328000000; CNone])].

Definition no_table : DataFrame := mkDF None [] [].

(** A table whose two columns carry the same period label. *)
Definition repeated_period : DataFrame :=
  mkDF None
       [CStr "Total Revenue"]
       [("2023-12-31", [CInt 1000000]); ("2023-12-31", [CInt 2000000])].

Definition apple_info : pyval :=
  PDict [("longName", PStr "Apple Inc."); ("financialCurrency", PStr "USD");
         ("fullTimeEmployees", PInt 161000)].

Definition sample_yf_Ticker (ticker : pyval) : result TickerObj :=
  match ticker with
  | PStr "AAPL" =>
      OK (mkTicker (OK apple_info) (OK income) (OK no_table) (OK no_table)
                   (OK no_table) (OK no_table) (OK no_table))
  | PStr "MSFT" =>
      OK (mkTicker (OK (PDict [])) (OK no_table) (OK income) (OK no_table)
                   (OK no_table) (OK no_table) (OK no_table))
  | PStr "GLBX" =>
      OK (mkTicker (OK (PDict [("longName", PStr "Globex Corp.")]))
                   (OK repeated_period) (OK no_table) (OK no_table)
                   (OK no_table) (OK no_table) (OK no_table))
  | PStr "AAPL.MX" =>
      OK (mkTicker (OK apple_info) (OK income) (OK no_table)
                   (Raise (Exc "HTTPError" "429 Too Many Requests"))
                   (OK no_table) (OK no_table) (OK no_table))
  | _ => Raise (Exc "HTTPError" "404 Not Found")
  end.

Definition sample_now : datetime := mkDate 2024 3 5 14 30 0.
Definition sample_later : datetime := mkDate 2024 3 5 23 59 59.

Definition sample_str_to_float (s : string) : option float :=
  if s =? "2500000" then Some (float_of_Z 2500000) else None.

Definition sample_repr (x : obj) : string :=
  match x with
  | OVal PNone => "None"
  | OVal (PBool true) => "True"
  | OVal (PBool false) => "False"
  | _ => "<object>"
  end.

Definition sample_excel_write (sh : sheet) : result unit := OK tt.

Definition sample_writer_close (wb : workbook) : result unit :=
  match wb with
  | [] => Raise (Exc "IndexError" "At least one sheet must be visible")
  | _ => OK tt
  end.

(** The record the fetch of "AAPL" and of "MSFT" returns in this world. *)
Definition apple_data : pydata :=
  [("info", OVal apple_info);
   ("financials", OFrame income);
   ("balance_sheet", OFrame no_table);
   ("cashflow", OFrame no_table);
   ("quarterly_financials", OFrame no_table);
   ("quarterly_balance_sheet", OFrame no_table);
   ("quarterly_cashflow", OFrame no_table);
   ("currency", OVal (PStr "USD"))].

Definition microsoft_data : pydata :=
  [("info", OVal (PDict []));
   ("financials", OFrame no_table);
   ("balance_sheet", OFrame income);
   ("cashflow", OFrame no_table);
   ("quarterly_financials", OFrame no_table);
   ("quarterly_balance_sheet", OFrame no_table);
   ("quarterly_cashflow", OFrame no_table);
   ("currency", OVal (PStr "Unknown"))].

(** More of the sample world: an answer with an entry that is no object,
    an answer without [quotes], a client whose profile is [None]. *)
Definition initech_search : pyval :=
  PDict [("quotes", PList [quote "ETF" "INIX"; PNone; quote "EQUITY" "INTC"])].

Definition initech_requests_get (url : string) : result response :=
  OK (mkResponse (OK initech_search)).

Definition bare_requests_get (url : string) : result response :=
  OK (mkResponse (OK (PDict [("count", PInt 0)]))).

Definition nameless_yf_Ticker (ticker : pyval) : result TickerObj :=
  OK (mkTicker (OK PNone) (OK income) (OK no_table) (OK no_table)
               (OK no_table) (OK no_table) (OK no_table)).

(** ** The pipeline *)

Section Pipeline.

(** [requests.get(url, headers=headers)] *)
Variable requests_get : string -> result response.
(** [yf.Ticker(ticker)] *)
Variable yf_Ticker : pyval -> result TickerObj.
(** [datetime.now()] *)
Variable datetime_now : datetime.
Variable str_to_float : string -> option float.
(** [str(x)] for what is not already a string *)
Variable repr : obj -> string.
(** The engine taking one sheet of [to_excel]; it may refuse it. *)
Variable excel_write : sheet -> result unit.
(** Leaving the [with] block saves the workbook. *)
Variable writer_close : workbook -> result unit.

(** [f"{x}"] *)
Definition py_str (x : obj) : string :=
  match x with
  | OVal (PStr s) => s
  | _ => repr x
  end.

(** *** Step 1: [find_ticker] *)

(** The [for item in ...] loop: [Some v] when the loop leaves through
    [return v], [None] when it runs to its end. *)
Fixpoint scan_quotes (items : list pyval) : result (option pyval) :=
  match items with
  | [] => OK None
  | item :: rest =>
      quoteType <- py_get item "quoteType" PNone ;;
      if py_eq_str quoteType "EQUITY"
      then (symbol <- py_get item "symbol" PNone ;; OK (Some symbol))
      else scan_quotes rest
  end.

Definition find_ticker (company_name : string) : M pyval :=
  let url := search_url company_name in
  returned <-
    try_except
      (emit (ev_requests_get url) ;;
       response <- lift (requests_get url) ;;
       data <- lift (resp_json response) ;;
       quotes <- lift (py_get data "quotes" (PList [])) ;;
       items <- lift (py_iter quotes) ;;
       lift (scan_quotes items))
      (fun e =>
         emit (st_error (fstr ["Ticker lookup error for "; company_name;
                               ": "; exn_str e])) ;;
         emit (logging_error (fstr ["Ticker lookup error for "; company_name;
                                    ": "; exn_str e])) ;;
         ret None) ;;
  match returned with
  | Some symbol => ret symbol
  | None => ret PNone
  end.

(** *** Step 2: [get_yfinance_data] *)

(** The body of the [try]: the client, its seven property reads, and a
    second read of [info] for the currency. *)
Definition retrieve (ticker : pyval) : M pydata :=
  emit (ev_yf_Ticker ticker) ;;
  t <- lift (yf_Ticker ticker) ;;
  info <- lift (t_info t) ;;
  financials <- lift (t_financials t) ;;
  balance_sheet <- lift (t_balance_sheet t) ;;
  cashflow <- lift (t_cashflow t) ;;
  quarterly_financials <- lift (t_quarterly_financials t) ;;
  quarterly_balance_sheet <- lift (t_quarterly_balance_sheet t) ;;
  quarterly_cashflow <- lift (t_quarterly_cashflow t) ;;
  info' <- lift (t_info t) ;;
  currency <- lift (py_get info' "financialCurrency" (PStr "Unknown")) ;;
  ret [("info", OVal info);
       ("financials", OFrame financials);
       ("balance_sheet", OFrame balance_sheet);
       ("cashflow", OFrame cashflow);
       ("quarterly_financials", OFrame quarterly_financials);
       ("quarterly_balance_sheet", OFrame quarterly_balance_sheet);
       ("quarterly_cashflow", OFrame quarterly_cashflow);
       ("currency", OVal currency)].

Definition get_yfinance_data (ticker : pyval) : M pydata :=
  try_except
    (retrieve ticker)
    (fun e =>
       emit (st_error (fstr ["yfinance error for "; py_str (OVal ticker);
                             ": "; exn_str e])) ;;
       emit (logging_error (fstr ["yfinance error for "; py_str (OVal ticker);
                                  ": "; exn_str e])) ;;
       ret []).

(** *** Step 3: [save_to_excel] *)

(** [df.to_excel(writer, sheet_name=..., index=False)] *)
Definition to_excel (sh : sheet) : W unit :=
  fun wb =>
    match excel_write sh with
    | OK _ => (wb ++ [sh], OK tt)
    | Raise e => (wb, Raise e)
    end.

(** The frame of the Overview sheet:
    [pd.DataFrame({"Attribute": list(info.keys()), "Value": list(info.values())})] *)
Definition overview_sheet (info : list (string * pyval)) : sheet :=
  mkSheet "Overview"
          [("Attribute", map (fun kv => PStr (fst kv)) info);
           ("Value", map snd info)].

Definition currency_note (currency : obj) : string :=
  fstr ["Currency: "; py_str currency; " (in millions)"].

(** [final_df] of [write_financial_sheet], as [to_excel] receives it. *)
Definition financial_sheet (currency : obj) (sheet_name : string) (df : DataFrame)
  : result sheet :=
  df_millions <- convert_to_millions str_to_float df ;;
  df_millions <- reset_index df_millions ;;
  let header := header_note (currency_note currency) df_millions in
  let final_df := concat header df_millions in
  OK (frame_sheet sheet_name final_df).

Definition write_financial_sheet (currency : obj) (sheet_name : string)
  (df : DataFrame) : W unit :=
  sh <- liftW (financial_sheet currency sheet_name df) ;;
  to_excel sh.

(** [if key in data and not data[key].empty: write_financial_sheet(name, data[key])] *)
Definition statement_sheet (currency : obj) (data : pydata) (key sheet_name : string)
  : W unit :=
  match lookup key data with
  | None => ret tt
  | Some (OFrame df) =>
      if negb (df_empty df)
      then write_financial_sheet currency sheet_name df
      else ret tt
  | Some (OVal v) => liftW (Raise (AttributeError v "empty"))
  end.

(** The name a statement key contributes: its sheet name when the table
    is there and not empty. *)
Definition piece (data : pydata) (key sheet_name : string) : list string :=
  match lookup key data with
  | Some (OFrame df) => if df_empty df then [] else [sheet_name]
  | _ => []
  end.

Definition overview_part (data : pydata) : workbook :=
  match lookup "info" data with
  | Some (OVal (PDict info)) => [overview_sheet info]
  | _ => []
  end.

(** Statement keys of [data] and the sheets they are written to. *)
Definition statement_sheets : list (string * string) :=
  [("financials", "Annual_Income");
   ("balance_sheet", "Annual_Balance");
   ("cashflow", "Annual_Cashflow");
   ("quarterly_financials", "Quarterly_Income");
   ("quarterly_balance_sheet", "Quarterly_Balance");
   ("quarterly_cashflow", "Quarterly_Cashflow")].

(** The body of the [with pd.ExcelWriter(...) as writer:] block. *)
Definition write_sheets (currency : obj) (data : pydata) : W unit :=
  (match lookup "info" data with
   | Some (OVal (PDict info)) => to_excel (overview_sheet info)
   | _ => ret tt
   end) ;;
  statement_sheet currency data "financials" "Annual_Income" ;;
  statement_sheet currency data "balance_sheet" "Annual_Balance" ;;
  statement_sheet currency data "cashflow" "Annual_Cashflow" ;;
  statement_sheet currency data "quarterly_financials" "Quarterly_Income" ;;
  statement_sheet currency data "quarterly_balance_sheet" "Quarterly_Balance" ;;
  statement_sheet currency data "quarterly_cashflow" "Quarterly_Cashflow".

(** The [with] block on a fresh writer: an exception of the body leaves
    the block; otherwise the workbook is saved on exit. *)
Definition with_ExcelWriter (body : W unit) : result workbook :=
  match body [] with
  | (wb, OK _) => writer_close wb ;; OK wb
  | (_, Raise e) => Raise e
  end.

Definition report_filename (now : datetime) (ticker : pyval) : string :=
  fstr [py_str (OVal ticker); "_public_diligence_"; strftime_Ymd now; ".xlsx"].

(** [now] is the reading of [datetime.now()] the call makes. The buffer is
    the saved workbook. *)
Definition save_to_excel (now : datetime) (company_name : string) (ticker : pyval)
  (data : pydata) : M (workbook * string) :=
  let filename := report_filename now ticker in
  let currency := dict_get data "currency" (OVal (PStr "Unknown")) in
  output <- lift (with_ExcelWriter (write_sheets currency data)) ;;
  emit (logging_info (fstr ["Excel report generated: "; filename])) ;;
  ret (output, filename).

(** *** Step 4: [run_public_diligence] *)

Definition is_empty_dict (data : pydata) : bool :=
  match data with [] => true | _ => false end.

Definition run_public_diligence (company_name : string)
  : M (option workbook * option string) :=
  ticker <- find_ticker company_name ;;
  if negb (truthy ticker)
  then
    emit (st_warning (fstr ["Ticker not found for "; company_name])) ;;
    ret (None, None)
  else
    emit (st_info (fstr ["Found ticker for "; company_name; ": ";
                         py_str (OVal ticker)])) ;;
    emit (logging_info (fstr ["Found ticker for "; company_name; ": ";
                              py_str (OVal ticker)])) ;;
    data <- get_yfinance_data ticker ;;
    if is_empty_dict data
    then
      emit (st_warning (fstr ["Could not fetch financial data for ";
                              company_name])) ;;
      ret (None, None)
    else
      ' (excel_buffer, filename) <-
        save_to_excel datetime_now company_name ticker data ;;
      ret (Some excel_buffer, Some filename).

(** *** The button's loop *)

Definition xlsx_mime : string :=
  "application/vnd.openxmlformats-officedocument.spreadsheetml.sheet".

(** [for company in companies: ...] *)
Fixpoint batch_loop (companies : list string) : M unit :=
  match companies with
  | [] => ret tt
  | company :: rest =>
      emit (st_spinner (fstr ["Processing "; company; "..."])) ;;
      ' (excel_buffer, filename) <- run_public_diligence company ;;
      match excel_buffer with
      | Some buffer =>
          let name := match filename with Some n => n | None => "None" end in
          emit (st_success (fstr ["Excel report generated for "; company])) ;;
          emit (st_download_button (fstr ["Download "; name]) buffer name xlsx_mime)
      | None => ret tt
      end ;;
      batch_loop rest
  end.

Definition run_batch (companies : list string) : M unit :=
  emit (st_write (fstr ["Running analysis for: "; String.concat ", " companies])) ;;
  batch_loop companies.

(** The spinner the loop shows for a company. *)
Definition spinner_of (company : string) : event :=
  st_spinner (fstr ["Processing "; company; "..."]).

(** A download as the loop offers it. *)
Definition download_ok (now : datetime) (e : event) : Prop :=
  match e with
  | st_download_button label _ file_name mime =>
      mime = xlsx_mime /\ label = fstr ["Download "; file_name] /\
      exists ticker, file_name = report_filename now ticker
  | _ => True
  end.

(** What runs when the button is pressed, on the text of the input box. *)
Definition run_button (company_input : string) : M unit :=
  run_batch (parse_companies company_input).

(** The per-company outcomes a trace shows: a report offered for download
    or a warning notice. *)
Definition is_outcome (e : event) : bool :=
  match e with
  | st_warning _ => true
  | st_download_button _ _ _ _ => true
  | _ => false
  end.

Definition outcomes {A} (c : M A) : list event := filter is_outcome (trace c).

Definition is_request (e : event) : bool :=
  match e with
  | ev_requests_get _ => true
  | _ => false
  end.

Definition is_spinner (e : event) : bool :=
  match e with
  | st_spinner _ => true
  | _ => false
  end.

(** A message the script itself puts on the page for the user: an error
    or a warning. *)
Definition is_notice (e : event) : bool :=
  match e with
  | st_error _ => true
  | st_warning _ => true
  | _ => false
  end.

Definition is_fetch_call (e : event) : bool :=
  match e with
  | ev_yf_Ticker _ => true
  | _ => false
  end.

(** * Facts *)

Unset Implicit Arguments.
Set Default Proof Using "Type".

(** ** Ticker resolution *)

Lemma scan_quotes_first_equity pre d post :
  forallb other_entry pre = true ->
  is_equity (PDict d) = true ->
  scan_quotes (pre ++ PDict d :: post) = OK (Some (dict_get d "symbol" PNone)).
Proof.
  intros Hpre Heq. induction pre as [|item pre IH]; simpl in *.
  - rewrite Heq. reflexivity.
  - apply andb_true_iff in Hpre as [Hitem Hpre].
    unfold other_entry in Hitem. apply andb_true_iff in Hitem as [Hobj Hne].
    destruct item; try discriminate. simpl in *.
    apply negb_true_iff in Hne. rewrite Hne. auto.
Qed.

Lemma scan_quotes_no_equity items :
  forallb (fun item => negb (is_equity item)) items = true ->
  scan_quotes items = OK None \/ exists e, scan_quotes items = Raise e.
Proof.
  induction items as [|item items IH]; simpl; intros H.
  - now left.
  - apply andb_true_iff in H as [Hitem H]. apply negb_true_iff in Hitem.
    destruct item; simpl in *; try (right; eexists; reflexivity).
    rewrite Hitem. auto.
Qed.

(** [find_ticker] reads the search service once, and reports on the page
    and in the log only when the lookup raised. *)
Lemma find_ticker_cases company_name :
  (exists v, find_ticker company_name
             = ([ev_requests_get (search_url company_name)], OK v)) \/
  (exists e,
      let msg := fstr ["Ticker lookup error for "; company_name; ": "; exn_str e] in
      find_ticker company_name
      = ([ev_requests_get (search_url company_name); st_error msg; logging_error msg],
         OK PNone)).
Proof.
  unfold find_ticker. simpl.
  destruct (requests_get (search_url company_name)) as [resp|e]; simpl;
    [|right; exists e; reflexivity].
  destruct (resp_json resp) as [data|e]; simpl; [|right; exists e; reflexivity].
  destruct (py_get data "quotes" (PList [])) as [quotes|e]; simpl;
    [|right; exists e; reflexivity].
  destruct (py_iter quotes) as [items|e]; simpl; [|right; exists e; reflexivity].
  destruct (scan_quotes items) as [[v|]|e]; simpl;
    [left; eexists; reflexivity|left; eexists; reflexivity|right; exists e; reflexivity].
Qed.

Lemma find_ticker_scanned company_name resp data quotes items :
  requests_get (search_url company_name) = OK resp ->
  resp_json resp = OK data ->
  py_get data "quotes" (PList []) = OK quotes ->
  py_iter quotes = OK items ->
  outcome (find_ticker company_name)
  = OK (match scan_quotes items with
        | OK (Some symbol) => symbol
        | _ => PNone
        end).
Proof.
  intros Hget Hjson Hquotes Hiter. unfold find_ticker. simpl.
  rewrite Hget. simpl. rewrite Hjson. simpl. rewrite Hquotes. simpl.
  rewrite Hiter. simpl. destruct (scan_quotes items) as [[v|]|e]; reflexivity.
Qed.

Lemma find_ticker_total company_name :
  exists v, outcome (find_ticker company_name) = OK v.
Proof.
  destruct (find_ticker_cases company_name) as [[v H]|[e H]];
    simpl in H; rewrite H; eexists; reflexivity.
Qed.

Lemma find_ticker_no_fetch company_name :
  existsb is_fetch_call (trace (find_ticker company_name)) = false.
Proof.
  destruct (find_ticker_cases company_name) as [[v H]|[e H]];
    simpl in H; rewrite H; reflexivity.
Qed.


(** ** Orchestration of one company *)

Lemma run_not_found company_name ticker :
  outcome (find_ticker company_name) = OK ticker ->
  truthy ticker = false ->
  run_public_diligence company_name
  = (trace (find_ticker company_name)
       ++ [st_warning (fstr ["Ticker not found for "; company_name])],
     OK (None, None)).
Proof.
  intros Hout Hfalsy. unfold run_public_diligence.
  destruct (find_ticker company_name) as [w r]. simpl in Hout. subst r.
  simpl. rewrite Hfalsy. reflexivity.
Qed.

(** C8: when the resolver's answer is a not-found one (a falsy value), the
    run of that company ends with the warning "Ticker not found for ...",
    returns no report, and its trace has no call of the provider client. *)
Theorem not_found_skips_fetch company_name ticker :
  outcome (find_ticker company_name) = OK ticker ->
  truthy ticker = false ->
  outcome (run_public_diligence company_name) = OK (None, None) /\
  In (st_warning (fstr ["Ticker not found for "; company_name]))
     (trace (run_public_diligence company_name)) /\
  existsb is_fetch_call (trace (run_public_diligence company_name)) = false /\
  outcomes (run_public_diligence company_name)
  = [st_warning (fstr ["Ticker not found for "; company_name])].
Proof.
  intros Hout Hfalsy. rewrite (run_not_found _ _ Hout Hfalsy).
  unfold outcomes. simpl.
  split; [reflexivity|]. split; [apply in_or_app; right; now left|].
  split.
  - rewrite existsb_app, find_ticker_no_fetch. reflexivity.
  - rewrite filter_app.
    destruct (find_ticker_cases company_name) as [[v H]|[e H]];
      simpl in H; rewrite H; reflexivity.
Qed.

(** C10: when the first EQUITY entry has no [symbol], or a falsy one, the
    resolver returns that value at once, whatever entries follow it, and
    the run reports the company as not found without any fetch. *)
Theorem first_equity_without_symbol company_name resp top pre d post :
  requests_get (search_url company_name) = OK resp ->
  resp_json resp = OK (PDict top) ->
  lookup "quotes" top = Some (PList (pre ++ PDict d :: post)) ->
  forallb other_entry pre = true ->
  is_equity (PDict d) = true ->
  truthy (dict_get d "symbol" PNone) = false ->
  outcome (find_ticker company_name) = OK (dict_get d "symbol" PNone) /\
  outcome (run_public_diligence company_name) = OK (None, None) /\
  outcomes (run_public_diligence company_name)
  = [st_warning (fstr ["Ticker not found for "; company_name])] /\
  existsb is_fetch_call (trace (run_public_diligence company_name)) = false.
Proof.
  intros Hget Hjson Hquotes Hpre Heq Hfalsy.
  assert (Hout : outcome (find_ticker company_name)
                 = OK (dict_get d "symbol" PNone)).
  { rewrite (find_ticker_scanned company_name resp (PDict top)
               (PList (pre ++ PDict d :: post)) (pre ++ PDict d :: post));
      auto.
    - now rewrite scan_quotes_first_equity.
    - simpl. unfold dict_get. now rewrite Hquotes. }
  split; [exact Hout|].
  rewrite (run_not_found _ _ Hout Hfalsy). unfold outcomes. simpl.
  split; [reflexivity|]. split.
  - rewrite filter_app.
    destruct (find_ticker_cases company_name) as [[v H]|[e H]];
      simpl in H; rewrite H; reflexivity.
  - rewrite existsb_app, find_ticker_no_fetch. reflexivity.
Qed.

(** ** Retrieval *)

Lemma get_yfinance_data_total ticker :
  exists data, outcome (get_yfinance_data ticker) = OK data.
Proof.
  unfold get_yfinance_data, try_except.
  destruct (retrieve ticker) as [w [data|e]]; simpl; eexists; reflexivity.
Qed.

Lemma retrieve_full ticker data :
  outcome (retrieve ticker) = OK data ->
  exists t info fin bs cf qfin qbs qcf,
    yf_Ticker ticker = OK t /\ t_info t = OK (PDict info) /\
    t_financials t = OK fin /\ t_balance_sheet t = OK bs /\
    t_cashflow t = OK cf /\ t_quarterly_financials t = OK qfin /\
    t_quarterly_balance_sheet t = OK qbs /\ t_quarterly_cashflow t = OK qcf /\
    data = [("info", OVal (PDict info));
            ("financials", OFrame fin);
            ("balance_sheet", OFrame bs);
            ("cashflow", OFrame cf);
            ("quarterly_financials", OFrame qfin);
            ("quarterly_balance_sheet", OFrame qbs);
            ("quarterly_cashflow", OFrame qcf);
            ("currency",
             OVal (dict_get info "financialCurrency" (PStr "Unknown")))].
Proof.
  unfold retrieve. simpl.
  destruct (yf_Ticker ticker) as [t|e] eqn:Ht; simpl; [|discriminate].
  destruct (t_info t) as [info|e] eqn:Hinfo; simpl; [|discriminate].
  destruct (t_financials t) as [fin|e] eqn:Hfin; simpl; [|discriminate].
  destruct (t_balance_sheet t) as [bs|e] eqn:Hbs; simpl; [|discriminate].
  destruct (t_cashflow t) as [cf|e] eqn:Hcf; simpl; [|discriminate].
  destruct (t_quarterly_financials t) as [qfin|e] eqn:Hqfin; simpl; [|discriminate].
  destruct (t_quarterly_balance_sheet t) as [qbs|e] eqn:Hqbs; simpl; [|discriminate].
  destruct (t_quarterly_cashflow t) as [qcf|e] eqn:Hqcf; simpl; [|discriminate].
  destruct info as [| | | | | |info]; simpl; try discriminate.
  intros H. injection H as <-.
  exists t, info, fin, bs, cf, qfin, qbs, qcf. repeat split; assumption.
Qed.

Lemma retrieve_trace ticker : trace (retrieve ticker) = [ev_yf_Ticker ticker].
Proof.
  unfold retrieve. simpl.
  destruct (yf_Ticker ticker) as [t|e]; simpl; [|reflexivity].
  destruct (t_info t) as [info|e]; simpl; [|reflexivity].
  destruct (t_financials t); simpl; [|reflexivity].
  destruct (t_balance_sheet t); simpl; [|reflexivity].
  destruct (t_cashflow t); simpl; [|reflexivity].
  destruct (t_quarterly_financials t); simpl; [|reflexivity].
  destruct (t_quarterly_balance_sheet t); simpl; [|reflexivity].
  destruct (t_quarterly_cashflow t); simpl; [|reflexivity].
  destruct (py_get info "financialCurrency" (PStr "Unknown")); reflexivity.
Qed.

Lemma find_ticker_no_outcome company_name :
  filter is_outcome (trace (find_ticker company_name)) = [].
Proof.
  destruct (find_ticker_cases company_name) as [[v H]|[e H]];
    simpl in H; rewrite H; reflexivity.
Qed.

Lemma run_fetch_failed company_name ticker e :
  outcome (find_ticker company_name) = OK ticker ->
  truthy ticker = true ->
  outcome (retrieve ticker) = Raise e ->
  outcome (run_public_diligence company_name) = OK (None, None) /\
  outcomes (run_public_diligence company_name)
  = [st_warning (fstr ["Could not fetch financial data for "; company_name])].
Proof.
  intros Hout Htruthy Hraise. unfold outcomes, run_public_diligence.
  pose proof (find_ticker_no_outcome company_name) as Hno.
  pose proof (retrieve_trace ticker) as Htr.
  destruct (find_ticker company_name) as [w0 r0]. simpl in Hout, Hno. subst r0.
  simpl. rewrite Htruthy. simpl.
  unfold get_yfinance_data, try_except.
  destruct (retrieve ticker) as [w [data|e'']]; simpl in *; try discriminate.
  subst w. simpl. split; [reflexivity|].
  rewrite filter_app, Hno. reflexivity.
Qed.

(** C4: the fetch is all or nothing. It never raises; when anything in the
    retrieval raises, the result is the empty dict, and the run of the
    company ends with a warning and no report; otherwise the result holds
    the profile, the six statement tables and the currency, which is
    "Unknown" when the profile has no [financialCurrency] key. *)
Theorem fetch_is_atomic ticker :
  (exists data, outcome (get_yfinance_data ticker) = OK data) /\
  (forall e,
      outcome (retrieve ticker) = Raise e ->
      outcome (get_yfinance_data ticker) = OK []) /\
  (forall data,
      outcome (retrieve ticker) = OK data ->
      outcome (get_yfinance_data ticker) = OK data /\
      exists t info fin bs cf qfin qbs qcf,
        yf_Ticker ticker = OK t /\ t_info t = OK (PDict info) /\
        t_financials t = OK fin /\ t_balance_sheet t = OK bs /\
        t_cashflow t = OK cf /\ t_quarterly_financials t = OK qfin /\
        t_quarterly_balance_sheet t = OK qbs /\
        t_quarterly_cashflow t = OK qcf /\
        data = [("info", OVal (PDict info));
                ("financials", OFrame fin);
                ("balance_sheet", OFrame bs);
                ("cashflow", OFrame cf);
                ("quarterly_financials", OFrame qfin);
                ("quarterly_balance_sheet", OFrame qbs);
                ("quarterly_cashflow", OFrame qcf);
                ("currency",
                 OVal (dict_get info "financialCurrency" (PStr "Unknown")))] /\
        (lookup "financialCurrency" info = None ->
         lookup "currency" data = Some (OVal (PStr "Unknown")))) /\
  (forall company_name e,
      outcome (find_ticker company_name) = OK ticker ->
      truthy ticker = true ->
      outcome (retrieve ticker) = Raise e ->
      outcome (run_public_diligence company_name) = OK (None, None) /\
      outcomes (run_public_diligence company_name)
      = [st_warning (fstr ["Could not fetch financial data for "; company_name])]).
Proof.
  split; [apply get_yfinance_data_total|]. split; [|split].
  - intros e H. unfold get_yfinance_data, try_except.
    destruct (retrieve ticker) as [w [data|e']]; simpl in *;
      [discriminate|reflexivity].
  - intros data H. split.
    + unfold get_yfinance_data, try_except.
      destruct (retrieve ticker) as [w [data'|e']]; simpl in *;
        [assumption|discriminate].
    + destruct (retrieve_full _ _ H)
        as (t & info & fin & bs & cf & qfin & qbs & qcf & H1 & H2 & H3 & H4 & H5
            & H6 & H7 & H8 & ->).
      exists t, info, fin, bs, cf, qfin, qbs, qcf.
      repeat (split; [assumption|]). split; [reflexivity|].
      intros Hnone. simpl. unfold dict_get. now rewrite Hnone.
  - intros company_name e. apply run_fetch_failed.
Qed.

(** ** Tables *)

Local Abbreviation conv := (millions_column str_to_float).

Lemma filter_label_absent col (l : list (string * list cell)) :
  ~ In col (map fst l) -> filter (fun c => fst c =? col) l = [].
Proof.
  induction l as [|c l IH]; simpl; intros H; [reflexivity|].
  destruct (String.eqb_spec (fst c) col) as [E|E];
    [exfalso; apply H; now left|].
  apply IH. intros Hin. apply H. now right.
Qed.

Lemma setitem_label_absent col vals (l : list (string * list cell)) :
  ~ In col (map fst l) ->
  map (fun c => if fst c =? col then (fst c, vals) else c) l = l.
Proof.
  induction l as [|c l IH]; simpl; intros H; [reflexivity|].
  destruct (String.eqb_spec (fst c) col) as [E|E];
    [exfalso; apply H; now left|].
  f_equal. apply IH. intros Hin. apply H. now right.
Qed.

Lemma map_fst_conv l : map fst (map conv l) = map fst l.
Proof. rewrite map_map. reflexivity. Qed.

Lemma convert_columns_spec name idx rest : forall done,
  NoDup (map fst (done ++ rest)) ->
  convert_columns str_to_float (map fst rest) (mkDF name idx (map conv done ++ rest))
  = OK (mkDF name idx (map conv (done ++ rest))).
Proof.
  induction rest as [|c rest IH]; intros done Hnd; simpl.
  - now rewrite !app_nil_r.
  - rewrite map_app in Hnd. simpl in Hnd.
    pose proof (NoDup_remove_2 _ _ _ Hnd) as Hnotin.
    assert (Hdone : ~ In (fst c) (map fst (map conv done))).
    { rewrite map_fst_conv. intros H. apply Hnotin, in_or_app. now left. }
    assert (Hrest : ~ In (fst c) (map fst rest)).
    { intros H. apply Hnotin, in_or_app. now right. }
    unfold df_getitem, df_setitem. simpl.
    rewrite filter_app, (filter_label_absent _ _ Hdone). simpl.
    rewrite String.eqb_refl, (filter_label_absent _ _ Hrest). simpl.
    rewrite map_app, (setitem_label_absent _ _ _ Hdone). simpl.
    rewrite String.eqb_refl, (setitem_label_absent _ _ _ Hrest).
    specialize (IH (done ++ [c])).
    replace ((done ++ [c]) ++ rest) with (done ++ c :: rest) in IH
      by (rewrite <- app_assoc; reflexivity).
    replace (map conv (done ++ [c]) ++ rest) with (map conv done ++ conv c :: rest) in IH
      by (rewrite map_app, <- app_assoc; reflexivity).
    apply IH. rewrite map_app. exact Hnd.
Qed.

Lemma convert_to_millions_spec df :
  NoDup (df_labels df) ->
  convert_to_millions str_to_float df
  = OK (mkDF (df_index_name df) (df_index df) (map conv (df_columns df))).
Proof.
  intros Hnd. destruct df as [name idx cols]. unfold convert_to_millions. simpl.
  apply (convert_columns_spec name idx cols []). exact Hnd.
Qed.

Lemma lookup_NoDup (l : list (string * list cell)) k v :
  NoDup (map fst l) -> In (k, v) l -> lookup k l = Some v.
Proof.
  induction l as [|[k' v'] l IH]; simpl; intros Hnd Hin; [contradiction|].
  inversion Hnd as [|? ? Hnotin Hnd']; subst.
  destruct Hin as [E|Hin].
  - injection E as -> ->. now rewrite String.eqb_refl.
  - destruct (String.eqb_spec k' k) as [->|_]; [|now apply IH].
    exfalso. apply Hnotin. change k with (fst (k, v)). now apply in_map.
Qed.

Lemma concat_header_columns (all : list (string * list cell)) x dflt :
  NoDup (map fst all) ->
  forall cols, incl cols all ->
  map (fun c => (fst c, snd c ++ dict_get all (fst c) dflt))
      (combine (map fst cols) (map (fun c => [c]) (repeat x (List.length cols))))
  = map (fun c => (fst c, x :: snd c)) cols.
Proof.
  intros Hnd. induction cols as [|[k v] cols IH]; intros Hincl; simpl;
    [reflexivity|].
  unfold dict_get at 1.
  rewrite (lookup_NoDup all k v Hnd) by (apply Hincl; now left).
  f_equal. apply IH. intros c Hc. apply Hincl. now right.
Qed.

Lemma mem_false s l : mem s l = false -> ~ In s l.
Proof.
  unfold mem. intros H Hin.
  assert (existsb (String.eqb s) l = true)
    by (apply existsb_exists; exists s; split; [assumption|apply String.eqb_refl]).
  congruence.
Qed.

Lemma length_range_index n : List.length (range_index n) = n.
Proof. unfold range_index. now rewrite length_map, length_seq. Qed.

(** The sheet built for a statement table. *)
Lemma financial_sheet_spec currency sheet_name df :
  NoDup (df_labels df) ->
  mem (index_label df) (df_labels df) = false ->
  financial_sheet currency sheet_name df
  = OK (mkSheet sheet_name
          ((index_label df, PStr (currency_note currency) :: map cell_val (df_index df))
             :: map (fun c => (fst c, PStr "" :: map cell_val (map (millions str_to_float) (snd c))))
                    (df_columns df))).
Proof.
  intros Hnd Hfresh. unfold financial_sheet.
  rewrite (convert_to_millions_spec df Hnd). simpl.
  destruct df as [name idx cols]. unfold reset_index, index_label, df_labels in *.
  simpl in *. rewrite map_fst_conv, Hfresh. simpl.
  unfold frame_sheet, concat, header_note, df_width, df_labels. simpl.
  unfold dict_get at 1. simpl. rewrite String.eqb_refl. simpl.
  f_equal. f_equal. rewrite Nat.sub_0_r.
  set (nm := match name with
             | Some n => n
             | None => if mem "index" (map fst cols) then "level_0" else "index"
             end) in *.
  pose proof (concat_header_columns ((nm, idx) :: map conv cols) (CStr "")
                (repeat (CFloat nan) (List.length idx))) as H.
  assert (Hall : NoDup (map fst ((nm, idx) :: map conv cols))).
  { simpl. rewrite map_fst_conv. constructor; [|exact Hnd]. now apply mem_false. }
  rewrite length_range_index, (H Hall (map conv cols)); clear H.
  - rewrite !map_map. reflexivity.
  - intros c Hc. now right.
Qed.

Lemma map_const {A B} (x : B) (l : list A) :
  map (fun _ => x) l = repeat x (List.length l).
Proof. induction l; simpl; congruence. Qed.

Lemma nth_converted (col : list cell) i :
  i < List.length col ->
  nth i (map cell_val (map (millions str_to_float) col)) PNone
  = cell_val (millions str_to_float (nth i col CNone)).
Proof.
  intros Hi. rewrite map_map.
  rewrite (nth_indep _ PNone (cell_val (millions str_to_float CNone)))
    by now rewrite length_map.
  apply (map_nth (fun c => cell_val (millions str_to_float c))).
Qed.



(** ** The workbook *)

Lemma bindW_ok {A B} (c : W A) (k : A -> W B) wb wb2 b :
  bind c k wb = (wb2, OK b) ->
  exists wb1 a, c wb = (wb1, OK a) /\ k a wb1 = (wb2, OK b).
Proof.
  simpl. destruct (c wb) as [wb1 [a|e]]; intros H; [|discriminate].
  now exists wb1, a.
Qed.

Lemma to_excel_ok sh wb0 wb1 u :
  to_excel sh wb0 = (wb1, OK u) -> wb1 = wb0 ++ [sh].
Proof.
  unfold to_excel. destruct (excel_write sh); intros H; [|discriminate].
  now injection H as <- _.
Qed.

Lemma financial_sheet_name currency sheet_name df sh :
  financial_sheet currency sheet_name df = OK sh -> sh_name sh = sheet_name.
Proof.
  unfold financial_sheet. simpl.
  destruct (convert_to_millions str_to_float df) as [dm|e]; [|discriminate].
  destruct (reset_index dm) as [dm'|e]; [|discriminate].
  intros H. now injection H as <-.
Qed.

Lemma statement_sheet_ok currency data key sheet_name wb0 wb1 u :
  statement_sheet currency data key sheet_name wb0 = (wb1, OK u) ->
  exists part, wb1 = wb0 ++ part /\ sheet_names part = piece data key sheet_name.
Proof.
  unfold statement_sheet, piece.
  destruct (lookup key data) as [[v|df]|].
  - discriminate.
  - destruct (df_empty df); cbv [negb ret bind Monad_W write_financial_sheet liftW].
    + intros H. inversion H; subst. exists []. now rewrite app_nil_r.
    + destruct (financial_sheet currency sheet_name df) as [sh|e] eqn:Hsh;
        [|discriminate].
      intros H. apply to_excel_ok in H. exists [sh]. split; [assumption|].
      simpl. now rewrite (financial_sheet_name _ _ _ _ Hsh).
  - cbn. intros H. inversion H; subst. exists []. now rewrite app_nil_r.
Qed.

Lemma write_sheets_ok currency data wb u :
  write_sheets currency data [] = (wb, OK u) ->
  exists rest,
    wb = overview_part data ++ rest /\
    sheet_names rest
    = piece data "financials" "Annual_Income"
      ++ piece data "balance_sheet" "Annual_Balance"
      ++ piece data "cashflow" "Annual_Cashflow"
      ++ piece data "quarterly_financials" "Quarterly_Income"
      ++ piece data "quarterly_balance_sheet" "Quarterly_Balance"
      ++ piece data "quarterly_cashflow" "Quarterly_Cashflow".
Proof.
  unfold write_sheets. intros H.
  apply bindW_ok in H as (wb1 & [] & H1 & H).
  apply bindW_ok in H as (wb2 & [] & H2 & H).
  apply bindW_ok in H as (wb3 & [] & H3 & H).
  apply bindW_ok in H as (wb4 & [] & H4 & H).
  apply bindW_ok in H as (wb5 & [] & H5 & H).
  apply bindW_ok in H as (wb6 & [] & H6 & H7).
  assert (E1 : wb1 = overview_part data).
  { unfold overview_part.
    destruct (lookup "info" data) as [[[]|]|]; simpl in H1;
      try (now injection H1 as <-).
    now apply to_excel_ok in H1. }
  apply statement_sheet_ok in H2 as (p2 & -> & N2).
  apply statement_sheet_ok in H3 as (p3 & -> & N3).
  apply statement_sheet_ok in H4 as (p4 & -> & N4).
  apply statement_sheet_ok in H5 as (p5 & -> & N5).
  apply statement_sheet_ok in H6 as (p6 & -> & N6).
  apply statement_sheet_ok in H7 as (p7 & -> & N7).
  subst wb1. exists (p2 ++ p3 ++ p4 ++ p5 ++ p6 ++ p7). split.
  - now rewrite <- !app_assoc.
  - unfold sheet_names in *. rewrite !map_app. congruence.
Qed.

Lemma save_to_excel_ok now company_name ticker data wb fn :
  outcome (save_to_excel now company_name ticker data) = OK (wb, fn) ->
  fn = report_filename now ticker /\
  exists u,
    write_sheets (dict_get data "currency" (OVal (PStr "Unknown"))) data []
    = (wb, OK u).
Proof.
  unfold save_to_excel, with_ExcelWriter. simpl.
  destruct (write_sheets _ data []) as [wb' [u|e]]; simpl; [|discriminate].
  destruct (writer_close wb'); simpl; [|discriminate].
  intros H. injection H as <- <-. split; [reflexivity|]. now exists u.
Qed.

Lemma piece_cases data key sheet_name :
  piece data key sheet_name = [] \/ piece data key sheet_name = [sheet_name].
Proof.
  unfold piece. destruct (lookup key data) as [[v|df]|]; auto.
  destruct (df_empty df); auto.
Qed.

Lemma piece_frame data key sheet_name df :
  lookup key data = Some (OFrame df) ->
  piece data key sheet_name = if df_empty df then [] else [sheet_name].
Proof. unfold piece. now intros ->. Qed.

Lemma overview_names data :
  sheet_names (overview_part data)
  = match lookup "info" data with
    | Some (OVal (PDict _)) => ["Overview"]
    | _ => []
    end.
Proof.
  unfold overview_part. now destruct (lookup "info" data) as [[[]|]|].
Qed.

(** The names of the sheets of a saved workbook. *)
Lemma saved_sheet_names now company_name ticker data wb fn :
  outcome (save_to_excel now company_name ticker data) = OK (wb, fn) ->
  sheet_names wb
  = sheet_names (overview_part data)
    ++ piece data "financials" "Annual_Income"
    ++ piece data "balance_sheet" "Annual_Balance"
    ++ piece data "cashflow" "Annual_Cashflow"
    ++ piece data "quarterly_financials" "Quarterly_Income"
    ++ piece data "quarterly_balance_sheet" "Quarterly_Balance"
    ++ piece data "quarterly_cashflow" "Quarterly_Cashflow".
Proof.
  intros H. apply save_to_excel_ok in H as (_ & u & H).
  apply write_sheets_ok in H as (rest & -> & Hrest).
  unfold sheet_names in *. now rewrite map_app, Hrest.
Qed.

Lemma piece_count_other data key sheet_name x :
  x <> sheet_name ->
  count_occ string_dec (piece data key sheet_name) x = 0.
Proof.
  intros Hne. destruct (piece_cases data key sheet_name) as [-> | ->];
    [reflexivity|]. simpl. destruct (string_dec sheet_name x); congruence.
Qed.

Ltac count_names :=
  rewrite ?count_occ_app; rewrite ?piece_count_other by discriminate;
  vm_compute; reflexivity.

(** C6: in a saved workbook, a statement table that is empty has no sheet
    of its name, and one that is not empty has exactly one. *)
Theorem empty_tables_have_no_sheet now company_name ticker data wb fn :
  outcome (save_to_excel now company_name ticker data) = OK (wb, fn) ->
  forall key sheet_name df,
    In (key, sheet_name) statement_sheets ->
    lookup key data = Some (OFrame df) ->
    (df_empty df = true -> ~ In sheet_name (sheet_names wb)) /\
    (df_empty df = false -> count_occ string_dec (sheet_names wb) sheet_name = 1).
Proof.
  intros Hsave key sheet_name df Hin Hkey.
  rewrite (saved_sheet_names _ _ _ _ _ _ Hsave), overview_names.
  assert (Hov : exists names,
             match lookup "info" data with
             | Some (OVal (PDict _)) => ["Overview"]
             | _ => []
             end = names /\ (names = [] \/ names = ["Overview"])).
  { eexists. split; [reflexivity|]. destruct (lookup "info" data) as [[[]|]|]; auto. }
  destruct Hov as (names & -> & Hnames).
  unfold statement_sheets in Hin. simpl in Hin.
  destruct Hin as [E|[E|[E|[E|[E|[E|[]]]]]]]; injection E as <- <-;
    rewrite (piece_frame _ _ _ _ Hkey); split; intros Hempty; rewrite Hempty;
    try apply (count_occ_not_In string_dec);
    destruct Hnames as [-> | ->]; count_names.
Qed.

Lemma two_column_rows {A} (f g : A -> pyval) (l : list A) :
  map (fun i => [nth i (map f l) PNone; nth i (map g l) PNone])
      (seq 0 (List.length l))
  = map (fun x => [f x; g x]) l.
Proof.
  induction l as [|x l IH]; simpl; [reflexivity|].
  f_equal. rewrite <- seq_shift, map_map. exact IH.
Qed.

Lemma overview_rows info :
  sheet_rows (overview_sheet info) = map (fun kv => [PStr (fst kv); snd kv]) info.
Proof.
  unfold sheet_rows, sheet_height, sheet_row. simpl. rewrite length_map.
  apply (two_column_rows (fun kv => PStr (fst kv)) snd).
Qed.

(** C3, as the code has it: a saved workbook has the Overview sheet exactly
    when [data] has an [info] entry that is a dict, empty or not; the sheet
    is then the first one and the only one of that name, its columns are
    Attribute and Value, and its rows are the entries of the dict in
    insertion order. *)
Theorem overview_iff_profile_is_dict now company_name ticker data wb fn :
  outcome (save_to_excel now company_name ticker data) = OK (wb, fn) ->
  (In "Overview" (sheet_names wb) <->
   exists info, lookup "info" data = Some (OVal (PDict info))) /\
  (forall info,
      lookup "info" data = Some (OVal (PDict info)) ->
      exists rest,
        wb = overview_sheet info :: rest /\
        ~ In "Overview" (sheet_names rest) /\
        map fst (sh_columns (overview_sheet info)) = ["Attribute"; "Value"] /\
        sheet_rows (overview_sheet info)
        = map (fun kv => [PStr (fst kv); snd kv]) info).
Proof.
  intros Hsave. split.
  - rewrite (saved_sheet_names _ _ _ _ _ _ Hsave), overview_names.
    split.
    + intros Hin. destruct (lookup "info" data) as [[[]|]|];
        try (now eexists); exfalso; revert Hin;
        apply (count_occ_not_In string_dec); count_names.
    + intros [info ->]. now left.
  - intros info Hinfo. apply save_to_excel_ok in Hsave as (_ & u & H).
    apply write_sheets_ok in H as (rest & -> & Hrest).
    unfold overview_part. rewrite Hinfo. exists rest.
    split; [reflexivity|]. split; [|split; [reflexivity|apply overview_rows]].
    rewrite Hrest. apply (count_occ_not_In string_dec).
    count_names.
Qed.


(** ** The batch *)

Lemma get_yfinance_data_no_outcome ticker :
  filter is_outcome (trace (get_yfinance_data ticker)) = [].
Proof.
  unfold get_yfinance_data, try_except.
  pose proof (retrieve_trace ticker) as Htr.
  destruct (retrieve ticker) as [w [data|e]]; simpl in *; subst w; reflexivity.
Qed.

Lemma save_to_excel_no_outcome now company_name ticker data :
  filter is_outcome (trace (save_to_excel now company_name ticker data)) = [].
Proof.
  unfold save_to_excel. simpl.
  destruct (with_ExcelWriter _); reflexivity.
Qed.

Ltac filter_trace := repeat (first [rewrite filter_app | progress simpl]).

(** What one run shows on the page: a warning when it returns no report,
    nothing yet when it returns one (the loop then offers the download). *)
Lemma run_outcomes company_name :
  match outcome (run_public_diligence company_name) with
  | OK (Some _, _) => outcomes (run_public_diligence company_name) = []
  | OK (None, _) =>
      exists msg, outcomes (run_public_diligence company_name) = [st_warning msg]
  | Raise _ => True
  end.
Proof.
  unfold outcomes, run_public_diligence.
  pose proof (find_ticker_no_outcome company_name) as H1.
  destruct (find_ticker_total company_name) as [ticker Hout].
  destruct (find_ticker company_name) as [w1 r1]. simpl in H1, Hout. subst r1.
  simpl. destruct (truthy ticker); simpl.
  - pose proof (get_yfinance_data_no_outcome ticker) as H2.
    destruct (get_yfinance_data ticker) as [w2 [data|e]]; simpl in *; [|exact I].
    destruct data as [|entry data]; simpl.
    + eexists. filter_trace. rewrite H1, H2. reflexivity.
    + pose proof (save_to_excel_no_outcome datetime_now company_name ticker
                    (entry :: data)) as H3.
      destruct (save_to_excel datetime_now company_name ticker (entry :: data))
        as [w3 [[wb fn]|e]]; simpl in *; [|exact I].
      filter_trace. rewrite H1, H2, H3. reflexivity.
  - eexists. rewrite filter_app, H1. reflexivity.
Qed.

(** A run raises only out of the report builder. *)
Lemma run_raises_in_build company_name e :
  outcome (run_public_diligence company_name) = Raise e ->
  exists ticker data,
    outcome (save_to_excel datetime_now company_name ticker data) = Raise e.
Proof.
  unfold run_public_diligence.
  destruct (find_ticker_total company_name) as [ticker Hout].
  destruct (find_ticker company_name) as [w1 r1]. simpl in Hout. subst r1.
  simpl. destruct (truthy ticker); simpl; [|discriminate].
  destruct (get_yfinance_data_total ticker) as [data Hdata].
  destruct (get_yfinance_data ticker) as [w2 r2]. simpl in Hdata. subst r2.
  simpl. destruct data as [|entry data]; simpl; [discriminate|].
  intros H. exists ticker, (entry :: data).
  destruct (save_to_excel datetime_now company_name ticker (entry :: data))
    as [w3 [[wb fn]|e']]; simpl in *; [discriminate|].
  injection H as ->. reflexivity.
Qed.

(** When no run raises, the loop reaches every company and shows one
    outcome for each. *)
Lemma batch_loop_total companies :
  (forall company e, In company companies ->
                     outcome (run_public_diligence company) <> Raise e) ->
  outcome (batch_loop companies) = OK tt /\
  List.length (outcomes (batch_loop companies)) = List.length companies.
Proof.
  induction companies as [|company rest IH]; intros Hno; [split; reflexivity|].
  destruct IH as [IHout IHlen]; [intros c e Hc; apply Hno; now right|].
  pose proof (run_outcomes company) as Hrun.
  pose proof (Hno company) as Hok.
  unfold outcomes in *. simpl.
  destruct (run_public_diligence company) as [w [[buffer filename]|e]];
    simpl in *; [|exfalso; apply (Hok e); auto].
  destruct (batch_loop rest) as [w' r']. simpl in *. subst r'.
  destruct buffer as [buffer|]; simpl.
  - split; [reflexivity|].
    rewrite filter_app, Hrun. simpl. now rewrite IHlen.
  - split; [reflexivity|]. destruct Hrun as [msg Hrun].
    rewrite filter_app, Hrun. simpl. now rewrite IHlen.
Qed.


(** ** The input line *)

Lemma split_comma_not_nil s : split_comma s <> [].
Proof.
  destruct s as [|c rest]; simpl; [discriminate|].
  destruct (is_comma c); [discriminate|].
  destruct (split_comma rest); discriminate.
Qed.

Lemma split_comma_no_comma s :
  Forall (fun piece => all_chars (fun c => negb (is_comma c)) piece = true)
         (split_comma s).
Proof.
  induction s as [|c rest IH]; simpl; [repeat constructor|].
  destruct (is_comma c) eqn:Hc; [constructor; [reflexivity|exact IH]|].
  destruct (split_comma rest) as [|piece pieces].
  - repeat constructor. simpl. now rewrite Hc.
  - inversion IH as [|? ? Hpiece Hpieces]; subst. constructor; [|exact Hpieces].
    simpl. now rewrite Hc, Hpiece.
Qed.

Lemma all_chars_lstrip p s :
  all_chars p s = true -> all_chars p (lstrip s) = true.
Proof.
  induction s as [|c rest IH]; simpl; [reflexivity|]. intros H.
  apply andb_true_iff in H as [Hc Hrest].
  destruct (is_space c); [now apply IH|]. simpl. now rewrite Hc, Hrest.
Qed.

Lemma all_chars_rstrip p s :
  all_chars p s = true -> all_chars p (rstrip s) = true.
Proof.
  induction s as [|c rest IH]; simpl; [reflexivity|]. intros H.
  apply andb_true_iff in H as [Hc Hrest]. specialize (IH Hrest).
  destruct (rstrip rest) as [|c' kept].
  - destruct (is_space c); simpl; [reflexivity|now rewrite Hc].
  - simpl in *. now rewrite Hc, IH.
Qed.

Lemma lstrip_head s :
  lstrip s = EmptyString \/
  exists c rest, lstrip s = String c rest /\ is_space c = false.
Proof.
  induction s as [|c rest IH]; simpl; [now left|].
  destruct (is_space c) eqn:Hc; [exact IH|]. right. now exists c, rest.
Qed.

Lemma lstrip_fixed c rest : is_space c = false -> lstrip (String c rest) = String c rest.
Proof. simpl. now intros ->. Qed.

Lemma rstrip_head c rest :
  is_space c = false -> exists kept, rstrip (String c rest) = String c kept.
Proof.
  intros Hc. simpl. destruct (rstrip rest) as [|c' kept]; rewrite ?Hc; eauto.
Qed.

Lemma rstrip_idem s : rstrip (rstrip s) = rstrip s.
Proof.
  induction s as [|c rest IH]; simpl; [reflexivity|].
  destruct (rstrip rest) as [|c' kept] eqn:Hrest.
  - destruct (is_space c) eqn:Hc; simpl; [reflexivity|now rewrite Hc].
  - simpl. simpl in IH. rewrite IH. reflexivity.
Qed.

Lemma strip_idem s : strip (strip s) = strip s.
Proof.
  unfold strip. destruct (lstrip_head s) as [->|(c & rest & -> & Hc)];
    [reflexivity|].
  destruct (rstrip_head c rest Hc) as [kept Hkept]. rewrite Hkept.
  rewrite (lstrip_fixed _ _ Hc), <- Hkept. apply rstrip_idem.
Qed.

(** X1: every name the handler passes on is not empty, has no comma and has
    no blank at either end, whatever the text of the input box. *)
Theorem parse_companies_clean company_input :
  Forall (fun name => clean_name name = true) (parse_companies company_input).
Proof.
  unfold parse_companies. apply Forall_forall. intros name Hin.
  apply in_map_iff in Hin as (piece & <- & Hpiece).
  apply filter_In in Hpiece as [Hpiece Hne].
  pose proof (split_comma_no_comma company_input) as Hno.
  rewrite Forall_forall in Hno. specialize (Hno piece Hpiece).
  unfold clean_name. rewrite Hne, strip_idem, String.eqb_refl.
  unfold strip. now rewrite all_chars_rstrip by now apply all_chars_lstrip.
Qed.

Lemma split_comma_app x rest :
  all_chars (fun c => negb (is_comma c)) x = true ->
  split_comma (x ++ String "," rest) = x :: split_comma rest.
Proof.
  induction x as [|c x IH]; simpl; [reflexivity|]. intros H.
  apply andb_true_iff in H as [Hc Hx]. apply negb_true_iff in Hc.
  now rewrite Hc, (IH Hx).
Qed.

Lemma split_comma_single x :
  all_chars (fun c => negb (is_comma c)) x = true -> split_comma x = [x].
Proof.
  induction x as [|c x IH]; simpl; [reflexivity|]. intros H.
  apply andb_true_iff in H as [Hc Hx]. apply negb_true_iff in Hc.
  now rewrite Hc, (IH Hx).
Qed.

Lemma parse_companies_space rest :
  parse_companies (String " " rest) = parse_companies rest.
Proof.
  unfold parse_companies. simpl.
  pose proof (split_comma_not_nil rest) as Hnil.
  destruct (split_comma rest) as [|piece pieces]; [contradiction|].
  cbn [filter map].
  change (strip (String " " piece)) with (strip piece).
  destruct (nonempty (strip piece)); reflexivity.
Qed.

Lemma parse_companies_app x rest :
  clean_name x = true ->
  parse_companies (x ++ String "," rest) = x :: parse_companies rest.
Proof.
  unfold clean_name. intros H.
  apply andb_true_iff in H as [H Hstrip]. apply andb_true_iff in H as [Hne Hno].
  apply String.eqb_eq in Hstrip.
  unfold parse_companies. rewrite (split_comma_app _ _ Hno).
  cbn [filter]. rewrite Hstrip, Hne. cbn [map]. now rewrite Hstrip.
Qed.

(** X2: the handler reads back the line it prints. For names that are not
    empty, have no comma and no blank at either end, splitting their
    [", ".join] gives the names again, in order. *)
Theorem parse_companies_join names :
  Forall (fun name => clean_name name = true) names ->
  parse_companies (String.concat ", " names) = names.
Proof.
  induction names as [|x names IH]; intros Hclean; [reflexivity|].
  inversion Hclean as [|? ? Hx Hnames]; subst.
  destruct names as [|y names].
  - simpl. unfold clean_name in Hx.
    apply andb_true_iff in Hx as [Hx Hstrip].
    apply andb_true_iff in Hx as [Hne Hno]. apply String.eqb_eq in Hstrip.
    unfold parse_companies. rewrite (split_comma_single _ Hno).
    cbn [filter]. rewrite Hstrip, Hne. cbn [map]. now rewrite Hstrip.
  - change (String.concat ", " (x :: y :: names))
      with (x ++ String "," (String " " (String.concat ", " (y :: names))))%string.
    rewrite (parse_companies_app _ _ Hx), parse_companies_space.
    now rewrite (IH Hnames).
Qed.

Lemma lstrip_all_space s :
  all_chars is_space s = true -> lstrip s = EmptyString.
Proof.
  induction s as [|c rest IH]; simpl; [reflexivity|]. intros H.
  apply andb_true_iff in H as [Hc Hrest]. rewrite Hc. now apply IH.
Qed.

Lemma lstrip_not_all_space s :
  all_chars is_space s = false ->
  exists c rest, lstrip s = String c rest /\ is_space c = false.
Proof.
  induction s as [|c rest IH]; simpl; [discriminate|]. intros H.
  destruct (is_space c) eqn:Hc; [now apply IH|]. now exists c, rest.
Qed.

Lemma nonempty_strip s : nonempty (strip s) = negb (all_chars is_space s).
Proof.
  unfold strip. destruct (all_chars is_space s) eqn:Hs.
  - now rewrite (lstrip_all_space _ Hs).
  - destruct (lstrip_not_all_space _ Hs) as (c & rest & -> & Hc).
    destruct (rstrip_head c rest Hc) as [kept ->]. reflexivity.
Qed.

Lemma split_comma_blank s :
  forallb (all_chars is_space) (split_comma s)
  = all_chars (fun c => is_space c || is_comma c) s.
Proof.
  induction s as [|c rest IH]; simpl; [reflexivity|].
  destruct (is_comma c) eqn:Hc.
  - simpl. rewrite IH, orb_true_r. reflexivity.
  - rewrite orb_false_r, <- IH.
    pose proof (split_comma_not_nil rest) as Hnil.
    destruct (split_comma rest) as [|piece pieces]; [contradiction|].
    simpl. now rewrite andb_assoc.
Qed.

(** X3: the handler finds no company at all exactly when the text of the
    input box has nothing but blanks and commas (the empty text too). *)
Theorem parse_companies_nil company_input :
  parse_companies company_input = [] <->
  all_chars (fun c => is_space c || is_comma c) company_input = true.
Proof.
  rewrite <- split_comma_blank. unfold parse_companies.
  induction (split_comma company_input) as [|piece pieces IH]; simpl;
    [split; reflexivity|].
  rewrite nonempty_strip. destruct (all_chars is_space piece); simpl.
  - exact IH.
  - split; discriminate.
Qed.

Lemma split_comma_append a b :
  split_comma (a ++ String "," b) = split_comma a ++ split_comma b.
Proof.
  induction a as [|c a IH]; simpl; [reflexivity|].
  destruct (is_comma c); [now rewrite IH|]. rewrite IH.
  pose proof (split_comma_not_nil a) as Hnil.
  destruct (split_comma a) as [|piece pieces]; [contradiction|reflexivity].
Qed.

(** X20: a comma cuts the input line in two independent parts: the
    companies of [a,b] are those of [a] followed by those of [b], for any
    two texts. *)
Theorem parse_companies_comma a b :
  parse_companies (a ++ String "," b)
  = parse_companies a ++ parse_companies b.
Proof.
  unfold parse_companies.
  now rewrite split_comma_append, filter_app, map_app.
Qed.

(** ** Failure of the unit conversion and of the index promotion *)

Lemma filter_label_count col (cols : list (string * list cell)) :
  List.length (filter (fun c => fst c =? col) cols)
  = count_occ string_dec (map fst cols) col.
Proof.
  induction cols as [|c cols IH]; simpl; [reflexivity|].
  destruct (String.eqb_spec (fst c) col) as [E|E];
    destruct (string_dec (fst c) col) as [E'|E']; try contradiction;
    simpl; now rewrite IH.
Qed.

Lemma df_labels_setitem df col vals :
  df_labels (df_setitem df col vals) = df_labels df.
Proof.
  unfold df_labels, df_setitem. simpl. rewrite map_map. apply map_ext.
  intros c. now destruct (fst c =? col).
Qed.

Lemma df_getitem_cases df col :
  In col (df_labels df) ->
  (exists s, df_getitem df col = OK s /\
             count_occ string_dec (df_labels df) col = 1) \/
  (df_getitem df col = Raise to_numeric_TypeError /\
   count_occ string_dec (df_labels df) col <> 1).
Proof.
  intros Hin. unfold df_getitem, df_labels in *.
  rewrite <- filter_label_count.
  destruct (filter (fun c => fst c =? col) (df_columns df)) as [|c [|c' l]] eqn:Hf.
  - exfalso. apply in_map_iff in Hin as ([k v] & <- & Hin).
    assert (Hc : In (k, v) (filter (fun c => fst c =? fst (k, v)) (df_columns df)))
      by (apply filter_In; split; [assumption|apply String.eqb_refl]).
    rewrite Hf in Hc. exact Hc.
  - left. now exists (snd c).
  - right. split; [reflexivity|]. simpl. discriminate.
Qed.

Lemma convert_columns_result labels : forall df,
  incl labels (df_labels df) ->
  (exists df', convert_columns str_to_float labels df = OK df' /\
               Forall (fun l => count_occ string_dec (df_labels df) l = 1) labels) \/
  (convert_columns str_to_float labels df = Raise to_numeric_TypeError /\
   exists l, In l labels /\ count_occ string_dec (df_labels df) l <> 1).
Proof.
  induction labels as [|col rest IH]; intros df Hincl; simpl.
  - left. exists df. split; [reflexivity|constructor].
  - destruct (df_getitem_cases df col) as [(s & Hs & Hone)|[Hraise Hmany]];
      [apply Hincl; now left| |].
    + rewrite Hs.
      destruct (IH (df_setitem df col (map (millions str_to_float) s)))
        as [(df' & Hdf' & Hall)|(Hraise & l & Hl & Hmany)].
      * rewrite df_labels_setitem. intros l Hl. apply Hincl. now right.
      * left. exists df'. split; [exact Hdf'|].
        rewrite df_labels_setitem in Hall. now constructor.
      * right. split; [exact Hraise|]. exists l. split; [now right|].
        now rewrite df_labels_setitem in Hmany.
    + right. rewrite Hraise. split; [reflexivity|]. exists col. split; [now left|].
      exact Hmany.
Qed.

Lemma convert_to_millions_cases df :
  (NoDup (df_labels df) /\
   convert_to_millions str_to_float df
   = OK (mkDF (df_index_name df) (df_index df)
              (map (millions_column str_to_float) (df_columns df)))) \/
  (~ NoDup (df_labels df) /\
   convert_to_millions str_to_float df = Raise to_numeric_TypeError).
Proof.
  destruct (convert_columns_result (df_labels df) df (incl_refl _))
    as [(df' & Hdf' & Hall)|(Hraise & l & Hl & Hmany)].
  - left. assert (Hnd : NoDup (df_labels df)).
    { apply (NoDup_count_occ' string_dec). intros x Hx.
      rewrite Forall_forall in Hall. now apply Hall. }
    split; [exact Hnd|]. apply (convert_to_millions_spec df Hnd).
  - right. split; [|exact Hraise]. intros Hnd.
    apply Hmany. now apply (NoDup_count_occ' string_dec).
Qed.

(** X4: the unit conversion goes through exactly when the column labels of
    the table are distinct. It then keeps the row labels, the column labels
    and their order, and turns every cell into the float
    [to_numeric(cell) / 1e6]; with a repeated label it raises the
    [TypeError] of [pd.to_numeric]. *)
Theorem convert_to_millions_outcome df :
  (NoDup (df_labels df) /\
   convert_to_millions str_to_float df
   = OK (mkDF (df_index_name df) (df_index df)
              (map (fun c => (fst c, map (fun x => CFloat (fdiv (to_numeric str_to_float x) f1e6))
                                         (snd c)))
                   (df_columns df)))) \/
  (~ NoDup (df_labels df) /\
   convert_to_millions str_to_float df = Raise to_numeric_TypeError).
Proof. exact (convert_to_millions_cases df). Qed.

Lemma financial_sheet_cases currency sheet_name df :
  (NoDup (df_labels df) /\ mem (index_label df) (df_labels df) = false /\
   exists sh, financial_sheet currency sheet_name df = OK sh) \/
  (~ NoDup (df_labels df) /\
   financial_sheet currency sheet_name df = Raise to_numeric_TypeError) \/
  (NoDup (df_labels df) /\ mem (index_label df) (df_labels df) = true /\
   financial_sheet currency sheet_name df
   = Raise (Exc "ValueError"
                (fstr ["cannot insert "; index_label df; ", already exists"]))).
Proof.
  destruct (convert_to_millions_cases df) as [[Hnd Hconv]|[Hdup Hconv]].
  - destruct (mem (index_label df) (df_labels df)) eqn:Hmem.
    + right. right. split; [exact Hnd|]. split; [reflexivity|].
      unfold financial_sheet. rewrite Hconv. simpl.
      destruct df as [name idx cols].
      unfold reset_index, index_label, df_labels in *. simpl in *.
      rewrite map_fst_conv, Hmem. reflexivity.
    + left. split; [exact Hnd|]. split; [reflexivity|]. eexists.
      now apply financial_sheet_spec.
  - right. left. split; [exact Hdup|]. unfold financial_sheet.
    now rewrite Hconv.
Qed.

(** X5: a statement sheet is built exactly when the column labels of the
    table are distinct and the label [reset_index] gives the promoted
    column is not one of them. A repeated label raises the [TypeError] of
    the conversion; a taken label raises [ValueError], naming it. *)
Theorem financial_sheet_outcome currency sheet_name df :
  (NoDup (df_labels df) /\ mem (index_label df) (df_labels df) = false /\
   exists sh, financial_sheet currency sheet_name df = OK sh) \/
  (~ NoDup (df_labels df) /\
   financial_sheet currency sheet_name df = Raise to_numeric_TypeError) \/
  (NoDup (df_labels df) /\ mem (index_label df) (df_labels df) = true /\
   financial_sheet currency sheet_name df
   = Raise (Exc "ValueError"
                (fstr ["cannot insert "; index_label df; ", already exists"]))).
Proof. exact (financial_sheet_cases currency sheet_name df). Qed.

(** ** More on the workbook *)

(** X6: the sheets of a saved workbook come in the builder's fixed order,
    Overview first and then the annual and the quarterly statements, each
    name at most once. *)
Theorem saved_sheets_in_order now company_name ticker data wb fn :
  outcome (save_to_excel now company_name ticker data) = OK (wb, fn) ->
  sheet_names wb = filter (fun n => mem n (sheet_names wb)) all_sheet_names /\
  NoDup (sheet_names wb).
Proof.
  intros Hsave.
  assert (H : sheet_names wb
              = filter (fun n => mem n (sheet_names wb)) all_sheet_names).
  { rewrite (saved_sheet_names _ _ _ _ _ _ Hsave), overview_names.
    destruct (piece_cases data "financials" "Annual_Income") as [-> | ->];
    destruct (piece_cases data "balance_sheet" "Annual_Balance") as [-> | ->];
    destruct (piece_cases data "cashflow" "Annual_Cashflow") as [-> | ->];
    destruct (piece_cases data "quarterly_financials" "Quarterly_Income")
      as [-> | ->];
    destruct (piece_cases data "quarterly_balance_sheet" "Quarterly_Balance")
      as [-> | ->];
    destruct (piece_cases data "quarterly_cashflow" "Quarterly_Cashflow")
      as [-> | ->];
    destruct (lookup "info" data) as [[[]|]|]; vm_compute; reflexivity. }
  split; [exact H|]. rewrite H. apply NoDup_filter.
  repeat constructor; simpl; intros Hin;
    repeat (destruct Hin as [Hin|Hin]; [discriminate Hin|]); exact Hin.
Qed.

Lemma statement_sheet_built currency data key sheet_name wb0 wb1 u :
  statement_sheet currency data key sheet_name wb0 = (wb1, OK u) ->
  exists part,
    wb1 = wb0 ++ part /\
    Forall (fun sh => exists name df, financial_sheet currency name df = OK sh)
           part.
Proof.
  unfold statement_sheet.
  destruct (lookup key data) as [[v|df]|].
  - discriminate.
  - destruct (df_empty df); cbv [negb ret bind Monad_W write_financial_sheet liftW].
    + intros H. inversion H; subst. exists []. now rewrite app_nil_r.
    + destruct (financial_sheet currency sheet_name df) as [sh|e] eqn:Hsh;
        [|discriminate].
      intros H. apply to_excel_ok in H. exists [sh]. split; [assumption|].
      constructor; [|constructor]. now exists sheet_name, df.
  - cbn. intros H. inversion H; subst. exists []. now rewrite app_nil_r.
Qed.

Lemma write_sheets_built currency data wb u :
  write_sheets currency data [] = (wb, OK u) ->
  exists rest,
    wb = overview_part data ++ rest /\
    Forall (fun sh => exists name df, financial_sheet currency name df = OK sh)
           rest.
Proof.
  unfold write_sheets. intros H.
  apply bindW_ok in H as (wb1 & [] & H1 & H).
  apply bindW_ok in H as (wb2 & [] & H2 & H).
  apply bindW_ok in H as (wb3 & [] & H3 & H).
  apply bindW_ok in H as (wb4 & [] & H4 & H).
  apply bindW_ok in H as (wb5 & [] & H5 & H).
  apply bindW_ok in H as (wb6 & [] & H6 & H7).
  assert (E1 : wb1 = overview_part data).
  { unfold overview_part.
    destruct (lookup "info" data) as [[[]|]|]; simpl in H1;
      try (now injection H1 as <-).
    now apply to_excel_ok in H1. }
  apply statement_sheet_built in H2 as (p2 & -> & N2).
  apply statement_sheet_built in H3 as (p3 & -> & N3).
  apply statement_sheet_built in H4 as (p4 & -> & N4).
  apply statement_sheet_built in H5 as (p5 & -> & N5).
  apply statement_sheet_built in H6 as (p6 & -> & N6).
  apply statement_sheet_built in H7 as (p7 & -> & N7).
  subst wb1. exists (p2 ++ p3 ++ p4 ++ p5 ++ p6 ++ p7). split.
  - now rewrite <- !app_assoc.
  - repeat (apply Forall_app; split; [assumption|]). assumption.
Qed.

Lemma financial_sheet_note currency sheet_name df sh :
  financial_sheet currency sheet_name df = OK sh ->
  exists label cells rest,
    sh_columns sh = (label, PStr (currency_note currency) :: cells) :: rest.
Proof.
  intros Hsh.
  destruct (financial_sheet_cases currency sheet_name df)
    as [(Hnd & Hfresh & _)|[[_ H]|(_ & _ & H)]];
    [|rewrite H in Hsh; discriminate|rewrite H in Hsh; discriminate].
  rewrite (financial_sheet_spec currency sheet_name df Hnd Hfresh) in Hsh.
  injection Hsh as <-. simpl. eauto.
Qed.

Lemma saved_statement_notes now company_name ticker data wb fn :
  outcome (save_to_excel now company_name ticker data) = OK (wb, fn) ->
  forall sh,
    In sh wb -> sh_name sh <> "Overview" ->
    exists label cells rest,
      sh_columns sh
      = (label,
         PStr (currency_note (dict_get data "currency" (OVal (PStr "Unknown"))))
           :: cells) :: rest.
Proof.
  intros Hsave sh Hin Hname. apply save_to_excel_ok in Hsave as (_ & u & H).
  apply write_sheets_built in H as (rest & -> & Hrest).
  apply in_app_or in Hin as [Hin|Hin].
  - exfalso. apply Hname. unfold overview_part in Hin.
    destruct (lookup "info" data) as [[[]|]|]; try contradiction.
    destruct Hin as [<-|[]]. reflexivity.
  - rewrite Forall_forall in Hrest.
    destruct (Hrest sh Hin) as (name & df & Hsh).
    exact (financial_sheet_note _ _ _ _ Hsh).
Qed.

(** X7: in a saved workbook every sheet other than Overview opens with the
    same note, "Currency: {currency} (in millions)", where the currency is
    the [currency] entry of [data], and "Unknown" when [data] has none. *)
Theorem statement_sheets_carry_currency now company_name ticker data wb fn :
  outcome (save_to_excel now company_name ticker data) = OK (wb, fn) ->
  let currency := dict_get data "currency" (OVal (PStr "Unknown")) in
  (forall sh,
      In sh wb -> sh_name sh <> "Overview" ->
      exists label cells rest,
        sh_columns sh = (label, PStr (currency_note currency) :: cells) :: rest) /\
  (lookup "currency" data = None ->
   currency_note currency = "Currency: Unknown (in millions)").
Proof.
  intros Hsave currency. split.
  - exact (saved_statement_notes _ _ _ _ _ _ Hsave).
  - intros Hnone. subst currency. unfold dict_get. rewrite Hnone. reflexivity.
Qed.

(** ** File names *)

Lemma digit_inj n m : digit n = digit m -> n mod 10 = m mod 10.
Proof.
  unfold digit.
  pose proof (Nat.mod_upper_bound n 10 ltac:(discriminate)) as Hn.
  pose proof (Nat.mod_upper_bound m 10 ltac:(discriminate)) as Hm.
  generalize dependent (n mod 10). generalize dependent (m mod 10).
  intros b Hb a Ha H.
  assert (E : ascii_of_nat (48 + a) = ascii_of_nat (48 + b)) by congruence.
  apply (f_equal nat_of_ascii) in E.
  rewrite !nat_ascii_embedding in E by lia. lia.
Qed.

Lemma append_inv_head (a b c : string) : (a ++ b = a ++ c)%string -> b = c.
Proof.
  induction a as [|x a IH]; simpl; intros H; [exact H|].
  injection H as H. now apply IH.
Qed.

Lemma digit_app_inj n m (s s' : string) :
  (digit n ++ s = digit m ++ s')%string -> n mod 10 = m mod 10 /\ s = s'.
Proof.
  unfold digit. cbn [append]. intros H.
  assert (Ha : ascii_of_nat (48 + n mod 10) = ascii_of_nat (48 + m mod 10))
    by congruence.
  assert (Hs : s = s') by congruence.
  split; [|exact Hs]. apply digit_inj. unfold digit. now rewrite Ha.
Qed.

Lemma four_digits y :
  (Z.of_nat y <= 9999)%Z ->
  y = 1000 * ((y / 1000) mod 10) + 100 * ((y / 100) mod 10)
      + 10 * ((y / 10) mod 10) + y mod 10.
Proof.
  intros H. apply Nat2Z.inj.
  rewrite !Nat2Z.inj_add, !Nat2Z.inj_mul, !Nat2Z.inj_mod, !Nat2Z.inj_div.
  change (Z.of_nat 1000) with 1000%Z. change (Z.of_nat 100) with 100%Z.
  change (Z.of_nat 10) with 10%Z.
  pose proof (Nat2Z.is_nonneg y). Z.div_mod_to_equations. lia.
Qed.

Lemma two_digits y : y < 100 -> y = 10 * ((y / 10) mod 10) + y mod 10.
Proof.
  intros H. apply Nat2Z.inj.
  rewrite !Nat2Z.inj_add, !Nat2Z.inj_mul, !Nat2Z.inj_mod, !Nat2Z.inj_div.
  change (Z.of_nat 10) with 10%Z.
  pose proof (Nat2Z.is_nonneg y). apply Nat2Z.inj_lt in H.
  change (Z.of_nat 100) with 100%Z in H. Z.div_mod_to_equations. lia.
Qed.

Lemma strftime_Ymd_inj now now' :
  date_in_range now -> date_in_range now' ->
  strftime_Ymd now = strftime_Ymd now' ->
  year now = year now' /\ month now = month now' /\ day now = day now'.
Proof.
  unfold date_in_range, strftime_Ymd, fstr.
  intros (Hy & Hm & Hd) (Hy' & Hm' & Hd') H.
  cbn [String.concat append] in H.
  apply digit_app_inj in H as [Y3 H]. apply digit_app_inj in H as [Y2 H].
  apply digit_app_inj in H as [Y1 H]. apply digit_app_inj in H as [Y0 H].
  apply digit_app_inj in H as [M1 H]. apply digit_app_inj in H as [M0 H].
  apply digit_app_inj in H as [D1 D0]. apply digit_inj in D0.
  rewrite (four_digits (year now)), (four_digits (year now')) by lia.
  rewrite (two_digits (month now)), (two_digits (month now')) by lia.
  rewrite (two_digits (day now)), (two_digits (day now')) by lia.
  rewrite Y3, Y2, Y1, Y0, M1, M0, D1, D0. repeat split; reflexivity.
Qed.

Lemma length_append (a b : string) :
  String.length (a ++ b) = String.length a + String.length b.
Proof. induction a as [|x a IH]; simpl; [reflexivity|now rewrite IH]. Qed.

Lemma append_inv_tail (c : string) : forall a b : string,
  (a ++ c = b ++ c)%string -> a = b.
Proof.
  induction a as [|x a IH]; intros [|y b] H; simpl in H.
  - reflexivity.
  - apply (f_equal String.length) in H. simpl in H.
    rewrite length_append in H. lia.
  - apply (f_equal String.length) in H. simpl in H.
    rewrite length_append in H. lia.
  - injection H as -> H. f_equal. now apply IH.
Qed.

(** X8: under one ticker, two reports get the same file name exactly when
    they are built on the same day: the eight digits of the name tell the
    year, the month and the day apart. *)
Theorem report_filename_same_day now now' ticker :
  date_in_range now -> date_in_range now' ->
  (report_filename now ticker = report_filename now' ticker <->
   year now = year now' /\ month now = month now' /\ day now = day now').
Proof.
  intros Hnow Hnow'. split.
  - unfold report_filename, fstr. intros H.
    apply strftime_Ymd_inj; [assumption|assumption|].
    remember (strftime_Ymd now) as d. remember (strftime_Ymd now') as d'.
    cbn [String.concat append] in H.
    apply append_inv_head in H. injection H as H.
    now apply append_inv_tail in H.
  - intros (Hy & Hm & Hd). unfold report_filename, strftime_Ymd.
    now rewrite Hy, Hm, Hd.
Qed.

(** ** The shapes of one run *)

Lemma run_cases company_name :
  let req := ev_requests_get (search_url company_name) in
  let not_found := st_warning (fstr ["Ticker not found for "; company_name]) in
  let found v := fstr ["Found ticker for "; company_name; ": "; py_str (OVal v)] in
  (exists e,
      outcome (find_ticker company_name) = OK PNone /\
      run_public_diligence company_name
      = ([req;
          st_error (fstr ["Ticker lookup error for "; company_name; ": "; exn_str e]);
          logging_error (fstr ["Ticker lookup error for "; company_name; ": "; exn_str e]);
          not_found],
         OK (None, None))) \/
  (exists v,
      outcome (find_ticker company_name) = OK v /\ truthy v = false /\
      run_public_diligence company_name = ([req; not_found], OK (None, None))) \/
  (exists v e,
      outcome (find_ticker company_name) = OK v /\ truthy v = true /\
      outcome (retrieve v) = Raise e /\
      run_public_diligence company_name
      = ([req; st_info (found v); logging_info (found v); ev_yf_Ticker v;
          st_error (fstr ["yfinance error for "; py_str (OVal v); ": "; exn_str e]);
          logging_error (fstr ["yfinance error for "; py_str (OVal v); ": "; exn_str e]);
          st_warning (fstr ["Could not fetch financial data for "; company_name])],
         OK (None, None))) \/
  (exists v data e,
      outcome (find_ticker company_name) = OK v /\ truthy v = true /\
      outcome (retrieve v) = OK data /\
      outcome (save_to_excel datetime_now company_name v data) = Raise e /\
      run_public_diligence company_name
      = ([req; st_info (found v); logging_info (found v); ev_yf_Ticker v],
         Raise e)) \/
  (exists v data wb,
      outcome (find_ticker company_name) = OK v /\ truthy v = true /\
      outcome (retrieve v) = OK data /\
      outcome (save_to_excel datetime_now company_name v data)
      = OK (wb, report_filename datetime_now v) /\
      run_public_diligence company_name
      = ([req; st_info (found v); logging_info (found v); ev_yf_Ticker v;
          logging_info (fstr ["Excel report generated: ";
                              report_filename datetime_now v])],
         OK (Some wb, Some (report_filename datetime_now v)))).
Proof.
  intros req not_found found. subst req not_found found.
  unfold run_public_diligence.
  destruct (find_ticker_cases company_name) as [[v H]|[e H]]; simpl in H;
    rewrite H; simpl.
  2:{ left. exists e. split; reflexivity. }
  right. destruct (truthy v) eqn:Hv; simpl.
  2:{ left. exists v. repeat split; try reflexivity; assumption. }
  right. unfold get_yfinance_data, try_except.
  pose proof (retrieve_trace v) as Htr.
  pose proof (retrieve_full v) as Hfull.
  destruct (retrieve v) as [w [data|e]] eqn:Hret; simpl in *; subst w; simpl.
  2:{ left. exists v, e.
      repeat split; first [reflexivity | assumption | now rewrite Hret]. }
  right.
  destruct (Hfull data eq_refl)
    as (t & info & fin & bs & cf & qfin & qbs & qcf & _ & _ & _ & _ & _ & _ & _
        & _ & Hdata).
  rewrite Hdata. cbn [is_empty_dict]. rewrite <- Hdata. clear Hdata Hfull.
  destruct (save_to_excel datetime_now company_name v data) as [w3 r3] eqn:Hsave.
  pose proof Hsave as Hshape.
  unfold save_to_excel in Hshape. simpl in Hshape.
  destruct (with_ExcelWriter _) as [wb|e]; simpl in Hshape;
    injection Hshape as <- <-; simpl.
  - right. exists v, data, wb.
    repeat split;
      first [reflexivity | assumption | now rewrite Hret | now rewrite Hsave].
  - left. exists v, data, e.
    repeat split;
      first [reflexivity | assumption | now rewrite Hret | now rewrite Hsave].
Qed.

Ltac run_shapes company_name :=
  let e := fresh "e" in
  let v := fresh "v" in
  let data := fresh "data" in
  let wb' := fresh "wb'" in
  let Hfind := fresh "Hfind" in
  let Hv := fresh "Hv" in
  let Hret := fresh "Hret" in
  let Hsave := fresh "Hsave" in
  let Hrun := fresh "Hrun" in
  destruct (run_cases company_name)
    as [(e & Hfind & Hrun)
       |[(v & Hfind & Hv & Hrun)
        |[(v & e & Hfind & Hv & Hret & Hrun)
         |[(v & data & e & Hfind & Hv & Hret & Hsave & Hrun)
          |(v & data & wb' & Hfind & Hv & Hret & Hsave & Hrun)]]]].

(** X9: when a run returns a report, the resolver's answer was a truthy
    ticker, the file name is built from that ticker and the day of the
    clock, the first sheet is the Overview of the provider's profile, and
    the run has put no warning and no error on the page. *)
Theorem run_report company_name wb filename :
  outcome (run_public_diligence company_name) = OK (Some wb, filename) ->
  exists ticker t info rest,
    outcome (find_ticker company_name) = OK ticker /\ truthy ticker = true /\
    yf_Ticker ticker = OK t /\ t_info t = OK (PDict info) /\
    filename = Some (report_filename datetime_now ticker) /\
    wb = overview_sheet info :: rest /\
    filter is_notice (trace (run_public_diligence company_name)) = [].
Proof.
  intros H. run_shapes company_name; rewrite Hrun in *; simpl in H;
    try discriminate.
  injection H as <- <-.
  destruct (retrieve_full v data Hret)
    as (t & info & fin & bs & cf & qfin & qbs & qcf & Ht & Hinfo & _ & _ & _ & _
        & _ & _ & Hdata).
  apply save_to_excel_ok in Hsave as (_ & u & Hw).
  apply write_sheets_ok in Hw as (rest & Hwb & _).
  exists v, t, info, rest. repeat split; try assumption; try reflexivity.
  rewrite Hwb, Hdata. reflexivity.
Qed.

(** X10: a run asks the search service once and never again; it calls the
    provider client once when the resolver's answer is truthy and not at
    all when it is not. There is no retry at either stage. *)
Theorem run_calls_once company_name :
  filter is_request (trace (run_public_diligence company_name))
  = [ev_requests_get (search_url company_name)] /\
  forall ticker,
    outcome (find_ticker company_name) = OK ticker ->
    filter is_fetch_call (trace (run_public_diligence company_name))
    = if truthy ticker then [ev_yf_Ticker ticker] else [].
Proof.
  run_shapes company_name; rewrite Hrun; (split; [reflexivity|]);
    intros ticker Hticker; rewrite Hfind in Hticker;
    injection Hticker as <-; try rewrite Hv; reflexivity.
Qed.

(** X11: when a run raises, it is the report builder that raised, after a
    resolved ticker and a full fetch, and the run has shown neither a
    warning nor an error: the page has the "Found ticker" line and nothing
    about the failure. *)
Theorem run_raises_unannounced company_name e :
  outcome (run_public_diligence company_name) = Raise e ->
  exists ticker data,
    outcome (find_ticker company_name) = OK ticker /\ truthy ticker = true /\
    outcome (retrieve ticker) = OK data /\
    outcome (save_to_excel datetime_now company_name ticker data) = Raise e /\
    trace (run_public_diligence company_name)
    = [ev_requests_get (search_url company_name);
       st_info (fstr ["Found ticker for "; company_name; ": "; py_str (OVal ticker)]);
       logging_info (fstr ["Found ticker for "; company_name; ": "; py_str (OVal ticker)]);
       ev_yf_Ticker ticker] /\
    filter is_notice (trace (run_public_diligence company_name)) = [].
Proof.
  intros H. run_shapes company_name; rewrite Hrun in *; simpl in H;
    try discriminate.
  injection H as <-. exists v, data. repeat split; try assumption; reflexivity.
Qed.

(** ** More on the batch *)

Lemma run_no_spinner company_name :
  filter is_spinner (trace (run_public_diligence company_name)) = [].
Proof. run_shapes company_name; rewrite Hrun; reflexivity. Qed.

Lemma run_raise_no_outcome company_name e :
  outcome (run_public_diligence company_name) = Raise e ->
  outcomes (run_public_diligence company_name) = [].
Proof.
  unfold outcomes. intros H.
  run_shapes company_name; rewrite Hrun in *; simpl in H; try discriminate.
  reflexivity.
Qed.

Lemma batch_loop_raise company rest w e :
  run_public_diligence company = (w, Raise e) ->
  batch_loop (company :: rest)
  = (st_spinner (fstr ["Processing "; company; "..."]) :: w, Raise e).
Proof. intros H. simpl. rewrite H. reflexivity. Qed.

Lemma batch_loop_ok company rest w buffer filename :
  run_public_diligence company = (w, OK (buffer, filename)) ->
  batch_loop (company :: rest)
  = (st_spinner (fstr ["Processing "; company; "..."])
       :: w
       ++ match buffer with
          | Some b =>
              let name := match filename with Some n => n | None => "None" end in
              [st_success (fstr ["Excel report generated for "; company]);
               st_download_button (fstr ["Download "; name]) b name xlsx_mime]
          | None => []
          end
       ++ trace (batch_loop rest),
     outcome (batch_loop rest)).
Proof.
  intros H. simpl. rewrite H.
  destruct (batch_loop rest) as [w' r'].
  destruct buffer as [b|]; simpl; rewrite <- ?app_assoc; reflexivity.
Qed.


Lemma batch_loop_spinners companies :
  (forall company e, In company companies ->
                     outcome (run_public_diligence company) <> Raise e) ->
  filter is_spinner (trace (batch_loop companies)) = map spinner_of companies.
Proof.
  induction companies as [|c rest IH]; intros Hno; [reflexivity|].
  pose proof (run_no_spinner c) as Hsp. pose proof (Hno c) as Hok.
  destruct (run_public_diligence c) as [w [[buffer filename]|e]] eqn:Hrun;
    [|exfalso; apply (Hok e); [now left|reflexivity]].
  simpl in Hsp. rewrite (batch_loop_ok _ _ _ _ _ Hrun).
  cbn [trace fst filter is_spinner map]. rewrite !filter_app, Hsp, IH.
  - now destruct buffer.
  - intros c' e' Hc'. apply Hno. now right.
Qed.



(** ** What the resolver and the fetcher report *)

(** X15: when the search request raises, or its body does not parse, the
    resolver puts one error on the page and the same line in the log,
    naming the company and the exception, and answers [None]. *)
Theorem find_ticker_reports_failure company_name e :
  requests_get (search_url company_name) = Raise e \/
  (exists resp, requests_get (search_url company_name) = OK resp /\
                resp_json resp = Raise e) ->
  find_ticker company_name
  = ([ev_requests_get (search_url company_name);
      st_error (fstr ["Ticker lookup error for "; company_name; ": "; exn_str e]);
      logging_error (fstr ["Ticker lookup error for "; company_name; ": "; exn_str e])],
     OK PNone).
Proof.
  unfold find_ticker. simpl. intros [H|(resp & H & Hjson)]; rewrite H; simpl;
    [reflexivity|]. now rewrite Hjson.
Qed.

Lemma scan_quotes_objects items :
  forallb is_object items = true -> exists r, scan_quotes items = OK r.
Proof.
  induction items as [|item items IH]; simpl; intros H; [now eexists|].
  apply andb_true_iff in H as [Hitem H]. destruct item; try discriminate.
  simpl. destruct (py_eq_str _ "EQUITY"); [now eexists|now apply IH].
Qed.

(** X16: an answer that is an object whose [quotes] is missing, or is a
    list of objects, is taken without any error on the page or in the log,
    whether or not a ticker is found; with [quotes] missing the answer is
    [None]. *)
Theorem find_ticker_quiet company_name resp top :
  requests_get (search_url company_name) = OK resp ->
  resp_json resp = OK (PDict top) ->
  lookup "quotes" top = None \/
  (exists items, lookup "quotes" top = Some (PList items) /\
                 forallb is_object items = true) ->
  trace (find_ticker company_name) = [ev_requests_get (search_url company_name)] /\
  (lookup "quotes" top = None -> outcome (find_ticker company_name) = OK PNone).
Proof.
  intros Hget Hjson Hquotes. unfold find_ticker. simpl.
  rewrite Hget. simpl. rewrite Hjson. simpl. unfold dict_get.
  destruct Hquotes as [Hnone|(items & Hsome & Hobj)].
  - rewrite Hnone. simpl. split; reflexivity.
  - rewrite Hsome. simpl.
    destruct (scan_quotes_objects _ Hobj) as [[v|] ->]; simpl;
      (split; [reflexivity|intros Hnone; congruence]).
Qed.

Lemma scan_quotes_bad_entry pre bad post :
  forallb other_entry pre = true ->
  is_object bad = false ->
  scan_quotes (pre ++ bad :: post) = Raise (AttributeError bad "get").
Proof.
  intros Hpre Hbad. induction pre as [|item pre IH]; simpl in *.
  - destruct bad; try discriminate; reflexivity.
  - apply andb_true_iff in Hpre as [Hitem Hpre].
    unfold other_entry in Hitem. apply andb_true_iff in Hitem as [Hobj Hne].
    destruct item; try discriminate. simpl in *.
    apply negb_true_iff in Hne. rewrite Hne. auto.
Qed.

(** X17: an entry of [quotes] that is not an object, met before any EQUITY
    entry, ends the lookup: the [AttributeError] of its [get] is reported
    and the answer is [None], whatever EQUITY entries come after it. *)
Theorem find_ticker_bad_entry company_name resp top pre bad post :
  requests_get (search_url company_name) = OK resp ->
  resp_json resp = OK (PDict top) ->
  lookup "quotes" top = Some (PList (pre ++ bad :: post)) ->
  forallb other_entry pre = true ->
  is_object bad = false ->
  find_ticker company_name
  = ([ev_requests_get (search_url company_name);
      st_error (fstr ["Ticker lookup error for "; company_name; ": '";
                      type_name bad; "' object has no attribute 'get'"]);
      logging_error (fstr ["Ticker lookup error for "; company_name; ": '";
                           type_name bad; "' object has no attribute 'get'"])],
     OK PNone).
Proof.
  intros Hget Hjson Hquotes Hpre Hbad. unfold find_ticker. simpl.
  rewrite Hget. simpl. rewrite Hjson. simpl. unfold dict_get.
  rewrite Hquotes. simpl. rewrite (scan_quotes_bad_entry _ _ _ Hpre Hbad).
  reflexivity.
Qed.

(** X18: the fetcher builds the provider client once. When the retrieval
    raises, it puts one error on the page and the same line in the log,
    naming the ticker and the exception, and returns the empty dict; when
    it does not, it returns the record and reports nothing. *)
Theorem get_yfinance_data_reports ticker :
  (forall e,
      outcome (retrieve ticker) = Raise e ->
      get_yfinance_data ticker
      = ([ev_yf_Ticker ticker;
          st_error (fstr ["yfinance error for "; py_str (OVal ticker); ": "; exn_str e]);
          logging_error (fstr ["yfinance error for "; py_str (OVal ticker); ": "; exn_str e])],
         OK [])) /\
  (forall data,
      outcome (retrieve ticker) = OK data ->
      get_yfinance_data ticker = ([ev_yf_Ticker ticker], OK data)).
Proof.
  unfold get_yfinance_data, try_except. pose proof (retrieve_trace ticker) as Htr.
  destruct (retrieve ticker) as [w [data|e]]; simpl in *; subst w;
    split; intros x Hx; try discriminate; now injection Hx as <-.
Qed.

(** X19: a profile that is not a dict counts as a failed fetch: the result
    is the empty dict, even when the client and all six tables were read
    without an exception. *)
Theorem profile_must_be_dict ticker t info :
  yf_Ticker ticker = OK t ->
  t_info t = OK info ->
  is_object info = false ->
  outcome (get_yfinance_data ticker) = OK [].
Proof.
  intros Ht Hinfo Hobj. unfold get_yfinance_data, try_except.
  destruct (retrieve ticker) as [w [data|e]] eqn:Hret; [|reflexivity].
  exfalso.
  destruct (retrieve_full ticker data) as (t' & d & _ & _ & _ & _ & _ & _ & Ht'
                                           & Hinfo' & _);
    [now rewrite Hret|].
  rewrite Ht in Ht'. injection Ht' as <-. rewrite Hinfo in Hinfo'.
  injection Hinfo' as ->. discriminate.
Qed.


End Pipeline.

(** * Runs on the sample data *)

Local Abbreviation sample_find_ticker := (find_ticker sample_requests_get).
Local Abbreviation sample_fetch := (get_yfinance_data sample_yf_Ticker sample_repr).
Local Abbreviation sample_sheet :=
  (financial_sheet sample_str_to_float sample_repr).
Local Abbreviation sample_save :=
  (save_to_excel sample_str_to_float sample_repr sample_excel_write
                 sample_writer_close).
Local Abbreviation sample_run :=
  (run_public_diligence sample_requests_get sample_yf_Ticker sample_now
                        sample_str_to_float sample_repr sample_excel_write
                        sample_writer_close).
Local Abbreviation sample_batch :=
  (run_batch sample_requests_get sample_yf_Ticker sample_now
             sample_str_to_float sample_repr sample_excel_write
             sample_writer_close).

(** Division by [1e6] in binary64: 394328000000 gives 394328. *)
Example millions_of_revenue :
  fdiv (float_of_Z 394328000000) f1e6 = float_of_Z 394328.
Proof. vm_compute. reflexivity. Qed.

Example fetch_microsoft :
  outcome (sample_fetch (PStr "MSFT")) = OK microsoft_data.
Proof. reflexivity. Qed.

Example run_apple_file_name :
  exists wb,
    outcome (sample_run "Apple")
    = OK (Some wb, Some "AAPL_public_diligence_20240305.xlsx") /\
    sheet_names wb = ["Overview"; "Annual_Income"].
Proof. eexists. split; vm_compute; reflexivity. Qed.

Example batch_of_two :
  outcome (sample_batch ["Apple"; "Zzzznotarealcompany123"]) = OK tt /\
  List.length (outcomes (sample_batch ["Apple"; "Zzzznotarealcompany123"])) = 2.
Proof. split; vm_compute; reflexivity. Qed.


Lemma not_found_skips_fetch_run :
  outcome (sample_find_ticker "Zzzznotarealcompany123") = OK PNone /\
  outcomes (sample_run "Zzzznotarealcompany123")
  = [st_warning "Ticker not found for Zzzznotarealcompany123"].
Proof.
  split; [reflexivity|].
  apply (not_found_skips_fetch sample_requests_get sample_yf_Ticker sample_now
           sample_str_to_float sample_repr sample_excel_write
           sample_writer_close "Zzzznotarealcompany123" PNone);
    reflexivity.
Defined.

Lemma first_equity_without_symbol_run :
  sample_requests_get (search_url "Acme") = OK (mkResponse (OK acme_search)) /\
  outcome (sample_find_ticker "Acme") = OK PNone /\
  outcomes (sample_run "Acme") = [st_warning "Ticker not found for Acme"].
Proof.
  split; [reflexivity|].
  destruct (first_equity_without_symbol sample_requests_get sample_yf_Ticker
              sample_now sample_str_to_float sample_repr sample_excel_write
              sample_writer_close "Acme"
              (mkResponse (OK acme_search))
              [("quotes", PList [quote "ETF" "ACMX";
                                 PDict [("quoteType", PStr "EQUITY")];
                                 quote "EQUITY" "ACME"])]
              [quote "ETF" "ACMX"]
              [("quoteType", PStr "EQUITY")]
              [quote "EQUITY" "ACME"]
              eq_refl eq_refl eq_refl eq_refl eq_refl eq_refl)
    as (H1 & _ & H3 & _).
  split; [exact H1|exact H3].
Defined.

Lemma fetch_is_atomic_run :
  outcome (retrieve sample_yf_Ticker (PStr "AAPL.MX"))
  = Raise (Exc "HTTPError" "429 Too Many Requests") /\
  outcome (sample_fetch (PStr "AAPL.MX")) = OK [] /\
  outcome (sample_fetch (PStr "AAPL")) = OK apple_data.
Proof.
  split; [reflexivity|]. split.
  - apply (proj1 (proj2 (fetch_is_atomic sample_requests_get sample_yf_Ticker
                           sample_now sample_str_to_float sample_repr
                           sample_excel_write sample_writer_close
                           (PStr "AAPL.MX")))
             (Exc "HTTPError" "429 Too Many Requests")).
    reflexivity.
  - apply (proj1 (proj2 (proj2 (fetch_is_atomic sample_requests_get
                                  sample_yf_Ticker sample_now
                                  sample_str_to_float sample_repr
                                  sample_excel_write sample_writer_close
                                  (PStr "AAPL")))) apple_data).
    reflexivity.
Defined.

Lemma income_labels_distinct : NoDup (df_labels income).
Proof.
  repeat constructor; simpl; intros H;
    repeat (destruct H as [H|H]; [discriminate H|]); exact H.
Defined.

Lemma income_wf : df_wf income.
Proof. repeat constructor. Defined.



Lemma empty_tables_have_no_sheet_run :
  exists wb fn,
    outcome (sample_save sample_now "Apple" (PStr "AAPL") apple_data)
    = OK (wb, fn) /\
    ~ In "Annual_Balance" (sheet_names wb) /\
    count_occ string_dec (sheet_names wb) "Annual_Income" = 1.
Proof.
  eexists. eexists. split; [vm_compute; reflexivity|]. split.
  - apply (proj1 (empty_tables_have_no_sheet sample_str_to_float sample_repr
                    sample_excel_write sample_writer_close sample_now "Apple"
                    (PStr "AAPL") apple_data _ _ eq_refl
                    "balance_sheet" "Annual_Balance" no_table
                    (or_intror (or_introl eq_refl)) eq_refl)).
    reflexivity.
  - apply (proj2 (empty_tables_have_no_sheet sample_str_to_float sample_repr
                    sample_excel_write sample_writer_close sample_now "Apple"
                    (PStr "AAPL") apple_data _ _ eq_refl
                    "financials" "Annual_Income" income
                    (or_introl eq_refl) eq_refl)).
    reflexivity.
Defined.

(** C3 as the spec words it fails: the profile of "MSFT" is the empty
    dict, the fetch returns it, and the saved workbook has the Overview
    sheet all the same. *)
Lemma empty_profile_gets_overview :
  outcome (sample_fetch (PStr "MSFT")) = OK microsoft_data /\
  lookup "info" microsoft_data = Some (OVal (PDict [])) /\
  exists wb fn,
    outcome (sample_save sample_now "Microsoft" (PStr "MSFT") microsoft_data)
    = OK (wb, fn) /\
    In "Overview" (sheet_names wb) /\
    ~ (In "Overview" (sheet_names wb) <->
       exists info, lookup "info" microsoft_data = Some (OVal (PDict info))
                    /\ info <> []).
Proof.
  split; [reflexivity|]. split; [reflexivity|].
  eexists. eexists. split; [vm_compute; reflexivity|].
  split; [now left|].
  intros [H _]. destruct H as (info & Hinfo & Hne); [now left|].
  injection Hinfo as <-. now apply Hne.
Qed.

Lemma overview_iff_profile_is_dict_run :
  exists wb fn,
    outcome (sample_save sample_now "Microsoft" (PStr "MSFT") microsoft_data)
    = OK (wb, fn) /\
    exists rest, wb = overview_sheet [] :: rest.
Proof.
  eexists. eexists. split; [vm_compute; reflexivity|].
  destruct (proj2 (overview_iff_profile_is_dict sample_str_to_float sample_repr
                     sample_excel_write sample_writer_close sample_now
                     "Microsoft" (PStr "MSFT") microsoft_data _ _ eq_refl)
              [] eq_refl) as (rest & Hwb & _).
  exists rest. exact Hwb.
Defined.


(** C1 fails on the code: the table of "Globex" has a repeated period
    label, [convert_to_millions] raises while its report is built, nothing
    catches it, and the loop never reaches "Microsoft". The batch of two
    ends with no outcome at all. *)
Theorem batch_aborts_on_build_failure :
  sample_batch ["Globex"; "Microsoft"]
  = ([st_write "Running analysis for: Globex, Microsoft";
      st_spinner "Processing Globex...";
      ev_requests_get (search_url "Globex");
      st_info "Found ticker for Globex: GLBX";
      logging_info "Found ticker for Globex: GLBX";
      ev_yf_Ticker (PStr "GLBX")],
     Raise (Exc "TypeError" "arg must be a list, tuple, 1-d array, or Series")) /\
  outcomes (sample_batch ["Globex"; "Microsoft"]) = [] /\
  List.length (outcomes (sample_batch ["Globex"; "Microsoft"]))
  < List.length ["Globex"; "Microsoft"] /\
  List.length (outcomes (sample_batch ["Microsoft"; "Globex"])) = 1.
Proof.
  split; [vm_compute; reflexivity|]. split; [vm_compute; reflexivity|].
  split; [vm_compute; lia|vm_compute; reflexivity].
Qed.

(** ** Runs of the further facts *)

Local Abbreviation sample_loop :=
  (batch_loop sample_requests_get sample_yf_Ticker sample_now
              sample_str_to_float sample_repr sample_excel_write
              sample_writer_close).
Local Abbreviation sample_button :=
  (run_button sample_requests_get sample_yf_Ticker sample_now
              sample_str_to_float sample_repr sample_excel_write
              sample_writer_close).

Lemma parse_companies_join_run :
  parse_companies "Apple, Microsoft" = ["Apple"; "Microsoft"].
Proof.
  apply (parse_companies_join ["Apple"; "Microsoft"]). repeat constructor.
Defined.

Lemma parse_companies_nil_run : parse_companies " , ,,  " = [].
Proof. apply (proj2 (parse_companies_nil " , ,,  ")). reflexivity. Defined.

Lemma saved_sheets_in_order_run :
  exists wb fn,
    outcome (sample_save sample_now "Apple" (PStr "AAPL") apple_data)
    = OK (wb, fn) /\
    sheet_names wb = filter (fun n => mem n (sheet_names wb)) all_sheet_names /\
    NoDup (sheet_names wb).
Proof.
  eexists. eexists. split; [vm_compute; reflexivity|].
  apply (saved_sheets_in_order sample_str_to_float sample_repr
           sample_excel_write sample_writer_close sample_now "Apple"
           (PStr "AAPL") apple_data _ _ eq_refl).
Defined.

Lemma statement_sheets_carry_currency_run :
  exists wb fn,
    outcome (sample_save sample_now "Apple" (PStr "AAPL") apple_data)
    = OK (wb, fn) /\
    forall sh,
      In sh wb -> sh_name sh <> "Overview" ->
      exists label cells rest,
        sh_columns sh
        = (label, PStr "Currency: USD (in millions)" :: cells) :: rest.
Proof.
  eexists. eexists. split; [vm_compute; reflexivity|].
  apply (proj1 (statement_sheets_carry_currency sample_str_to_float sample_repr
                  sample_excel_write sample_writer_close sample_now "Apple"
                  (PStr "AAPL") apple_data _ _ eq_refl)).
Defined.

Lemma sample_now_in_range : date_in_range sample_now.
Proof. unfold date_in_range. simpl. lia. Defined.

Lemma sample_later_in_range : date_in_range sample_later.
Proof. unfold date_in_range. simpl. lia. Defined.

Lemma report_filename_same_day_run :
  report_filename sample_repr sample_now (PStr "AAPL")
  = report_filename sample_repr sample_later (PStr "AAPL").
Proof.
  apply (proj2 (report_filename_same_day sample_repr sample_now sample_later
                  (PStr "AAPL") sample_now_in_range sample_later_in_range)).
  repeat split; reflexivity.
Defined.

Lemma run_report_run :
  exists wb ticker rest,
    outcome (sample_run "Apple")
    = OK (Some wb, Some (report_filename sample_repr sample_now ticker)) /\
    truthy ticker = true /\
    wb = overview_sheet [("longName", PStr "Apple Inc.");
                         ("financialCurrency", PStr "USD");
                         ("fullTimeEmployees", PInt 161000)] :: rest.
Proof.
  destruct run_apple_file_name as (wb & Hrun & _).
  destruct (run_report sample_requests_get sample_yf_Ticker sample_now
              sample_str_to_float sample_repr sample_excel_write
              sample_writer_close "Apple" wb _ Hrun)
    as (ticker & t & info & rest & Hfind & Htruthy & Ht & Hinfo & Hname & Hwb & _).
  exists wb, ticker, rest. split; [|split; [exact Htruthy|]].
  - rewrite Hrun. f_equal. f_equal. exact Hname.
  - injection Hfind as <-. injection Ht as <-. injection Hinfo as <-. exact Hwb.
Defined.

Lemma run_calls_once_run :
  filter is_fetch_call (trace (sample_run "Zzzznotarealcompany123")) = [] /\
  filter is_fetch_call (trace (sample_run "Apple")) = [ev_yf_Ticker (PStr "AAPL")].
Proof.
  split.
  - apply (proj2 (run_calls_once sample_requests_get sample_yf_Ticker sample_now
                    sample_str_to_float sample_repr sample_excel_write
                    sample_writer_close "Zzzznotarealcompany123") PNone).
    reflexivity.
  - apply (proj2 (run_calls_once sample_requests_get sample_yf_Ticker sample_now
                    sample_str_to_float sample_repr sample_excel_write
                    sample_writer_close "Apple") (PStr "AAPL")).
    reflexivity.
Defined.

Lemma globex_raises :
  outcome (sample_run "Globex") = Raise to_numeric_TypeError.
Proof. vm_compute. reflexivity. Qed.

Lemma run_raises_unannounced_run :
  outcome (sample_run "Globex") = Raise to_numeric_TypeError /\
  filter is_notice (trace (sample_run "Globex")) = [].
Proof.
  split; [exact globex_raises|].
  destruct (run_raises_unannounced sample_requests_get sample_yf_Ticker
              sample_now sample_str_to_float sample_repr sample_excel_write
              sample_writer_close "Globex" to_numeric_TypeError globex_raises)
    as (ticker & data & _ & _ & _ & _ & _ & Hquiet).
  exact Hquiet.
Defined.

Lemma apple_does_not_raise c e :
  In c ["Apple"] -> outcome (sample_run c) <> Raise e.
Proof. intros [<-|[]]. vm_compute. discriminate. Defined.


Lemma typed_names_do_not_raise c e :
  In c (parse_companies "Apple, Zzzznotarealcompany123") ->
  outcome (sample_run c) <> Raise e.
Proof. intros [<-|[<-|[]]]; vm_compute; discriminate. Defined.


Lemma find_ticker_reports_failure_run :
  sample_find_ticker "Offline"
  = ([ev_requests_get (search_url "Offline");
      st_error "Ticker lookup error for Offline: Max retries exceeded";
      logging_error "Ticker lookup error for Offline: Max retries exceeded"],
     OK PNone).
Proof.
  apply (find_ticker_reports_failure sample_requests_get "Offline"
           (Exc "ConnectionError" "Max retries exceeded")).
  left. reflexivity.
Defined.

Lemma find_ticker_quiet_run :
  trace (find_ticker bare_requests_get "Apple")
  = [ev_requests_get (search_url "Apple")] /\
  outcome (find_ticker bare_requests_get "Apple") = OK PNone.
Proof.
  destruct (find_ticker_quiet bare_requests_get "Apple"
              (mkResponse (OK (PDict [("count", PInt 0)])))
              [("count", PInt 0)] eq_refl eq_refl (or_introl eq_refl))
    as [Htrace Hnone].
  split; [exact Htrace|exact (Hnone eq_refl)].
Defined.

Lemma find_ticker_bad_entry_run :
  find_ticker initech_requests_get "Initech"
  = ([ev_requests_get (search_url "Initech");
      st_error "Ticker lookup error for Initech: 'NoneType' object has no attribute 'get'";
      logging_error "Ticker lookup error for Initech: 'NoneType' object has no attribute 'get'"],
     OK PNone).
Proof.
  apply (find_ticker_bad_entry initech_requests_get "Initech"
           (mkResponse (OK initech_search))
           [("quotes", PList [quote "ETF" "INIX"; PNone; quote "EQUITY" "INTC"])]
           [quote "ETF" "INIX"] PNone [quote "EQUITY" "INTC"]);
    reflexivity.
Defined.

Lemma get_yfinance_data_reports_run :
  sample_fetch (PStr "AAPL.MX")
  = ([ev_yf_Ticker (PStr "AAPL.MX");
      st_error "yfinance error for AAPL.MX: 429 Too Many Requests";
      logging_error "yfinance error for AAPL.MX: 429 Too Many Requests"],
     OK []) /\
  sample_fetch (PStr "AAPL") = ([ev_yf_Ticker (PStr "AAPL")], OK apple_data).
Proof.
  split.
  - apply (proj1 (get_yfinance_data_reports sample_yf_Ticker sample_repr
                    (PStr "AAPL.MX"))
             (Exc "HTTPError" "429 Too Many Requests")).
    reflexivity.
  - apply (proj2 (get_yfinance_data_reports sample_yf_Ticker sample_repr
                    (PStr "AAPL")) apple_data).
    reflexivity.
Defined.

Lemma profile_must_be_dict_run :
  outcome (get_yfinance_data nameless_yf_Ticker sample_repr (PStr "ACME")) = OK [].
Proof.
  apply (profile_must_be_dict nameless_yf_Ticker sample_repr (PStr "ACME")
           (mkTicker (OK PNone) (OK income) (OK no_table) (OK no_table)
                     (OK no_table) (OK no_table) (OK no_table))
           PNone);
    reflexivity.
Defined.

